(** * experiment-notifier: a shallow embedding of [notify.py]

    The module [notify.py] defines one helper, [_is_valid_mention], and one
    class, [notify], whose instances decorate a function so that a Slack
    message is posted when the function has finished.  This development
    embeds the helper, the constructor, the decoration, the wrapper, the
    delivery step and the message builder, and states the properties of the
    specification over them. *)

From stdpp Require Import gmap strings list.
From Stdlib Require Import ZArith Ascii String DecimalString.
From Stdlib Require Decimal DecimalFacts DecimalPos DecimalN.

Local Open Scope string_scope.

(* ================================================================= *)
(** * Python values the module handles *)

(** An exception object: the name of its class ([e.__class__.__name__]),
    the names of the proper ancestors of that class, and [str(e)]. *)
Record exception := Exc {
  exc_class : string;
  exc_bases : list string;
  exc_str : string
}.

(** [isinstance(e, cls)], classes being identified by their names. *)
Definition isinstance (e : exception) (cls : string) : bool :=
  bool_decide (cls = exc_class e) || bool_decide (cls ∈ exc_bases e).

Definition ValueError (msg : string) : exception :=
  Exc "ValueError" ["Exception"; "BaseException"] msg.

(** [str(KeyError(k))] is the [repr] of the key. *)
Definition KeyError (key : string) : exception :=
  Exc "KeyError" ["LookupError"; "Exception"; "BaseException"]
      ("'" ++ key ++ "'").

Definition TypeError (msg : string) : exception :=
  Exc "TypeError" ["Exception"; "BaseException"] msg.

Definition SlackApiError (msg : string) : exception :=
  Exc "SlackApiError" ["SlackClientError"; "Exception"; "BaseException"] msg.

Definition ConnectionError (msg : string) : exception :=
  Exc "ConnectionError" ["OSError"; "Exception"; "BaseException"] msg.

Definition KeyboardInterrupt : exception :=
  Exc "KeyboardInterrupt" ["BaseException"] "".

Definition SystemExit (code : string) : exception :=
  Exc "SystemExit" ["BaseException"] code.

(** The result of evaluating a Python expression or call: a value, or a
    raised exception. *)
Inductive outcome (X : Type) : Type :=
| Returns (x : X)
| Raises (e : exception).
Arguments Returns {X} x.
Arguments Raises {X} e.

(* ================================================================= *)
(** * Regular expressions, as far as [re.match] is used *)

Module re.

Inductive regex : Type :=
| Void                          (* matches nothing *)
| Eps                           (* the empty pattern *)
| Lit (c : ascii)               (* one literal character *)
| Range (lo hi : ascii)         (* [lo-hi] *)
| Cat (r1 r2 : regex)           (* r1r2 *)
| Alt (r1 r2 : regex)           (* r1|r2 *)
| Star (r : regex).             (* r* *)

(** [r+] *)
Definition Plus (r : regex) : regex := Cat r (Star r).

(** A literal word. *)
Fixpoint Word (s : string) : regex :=
  match s with
  | EmptyString => Eps
  | String c s' => Cat (Lit c) (Word s')
  end.

Definition in_range (lo hi c : ascii) : bool :=
  (N_of_ascii lo <=? N_of_ascii c)%N && (N_of_ascii c <=? N_of_ascii hi)%N.

(** The language of a pattern. *)
Inductive matches : regex -> string -> Prop :=
| m_eps : matches Eps ""
| m_lit c : matches (Lit c) (String c "")
| m_range lo hi c : in_range lo hi c = true -> matches (Range lo hi) (String c "")
| m_cat r1 r2 s1 s2 : matches r1 s1 -> matches r2 s2 -> matches (Cat r1 r2) (s1 ++ s2)
| m_alt_l r1 r2 s : matches r1 s -> matches (Alt r1 r2) s
| m_alt_r r1 r2 s : matches r2 s -> matches (Alt r1 r2) s
| m_star_nil r : matches (Star r) ""
| m_star_app r s1 s2 : matches r s1 -> matches (Star r) s2 -> matches (Star r) (s1 ++ s2).

Fixpoint nullable (r : regex) : bool :=
  match r with
  | Void => false
  | Eps => true
  | Lit _ => false
  | Range _ _ => false
  | Cat r1 r2 => nullable r1 && nullable r2
  | Alt r1 r2 => nullable r1 || nullable r2
  | Star _ => true
  end.

(** The derivative of a pattern by a character. *)
Fixpoint deriv (c : ascii) (r : regex) : regex :=
  match r with
  | Void => Void
  | Eps => Void
  | Lit a => if Ascii.eqb a c then Eps else Void
  | Range lo hi => if in_range lo hi c then Eps else Void
  | Cat r1 r2 =>
      if nullable r1
      then Alt (Cat (deriv c r1) r2) (deriv c r2)
      else Cat (deriv c r1) r2
  | Alt r1 r2 => Alt (deriv c r1) (deriv c r2)
  | Star r1 => Cat (deriv c r1) (Star r1)
  end.

(** [re.match(r, s) is not None]: some prefix of [s] is in the language of
    [r]; the match is anchored at the start of [s] only. *)
Fixpoint match_ (r : regex) (s : string) : bool :=
  nullable r ||
  match s with
  | EmptyString => false
  | String c s' => match_ (deriv c r) s'
  end.

(** [re.fullmatch(r, s) is not None]: the whole of [s] is in the language. *)
Fixpoint fullmatch (r : regex) (s : string) : bool :=
  match s with
  | EmptyString => nullable r
  | String c s' => fullmatch (deriv c r) s'
  end.

End re.

(* ================================================================= *)
(** * [_is_valid_mention] *)

(** The character class [[0-9A-Z]]. *)
Definition alnum : re.regex := re.Alt (re.Range "0" "9") (re.Range "A" "Z").

(** The pattern [r'channel|here|U[0-9A-Z]+']. *)
Definition valid_str : re.regex :=
  re.Alt (re.Word "channel")
    (re.Alt (re.Word "here")
       (re.Cat (re.Lit "U") (re.Plus alnum))).

Definition _is_valid_mention (s : string) : bool :=
  re.match_ valid_str s.

(** The three forms the comment, the docstring and the error message name, as
    a predicate on the whole string. *)
Definition upper_alnum (c : ascii) : bool :=
  re.in_range "0" "9" c || re.in_range "A" "Z" c.

Fixpoint all_upper_alnum (s : string) : bool :=
  match s with
  | EmptyString => true
  | String c s' => upper_alnum c && all_upper_alnum s'
  end.

Definition mention_form (s : string) : bool :=
  String.eqb s "channel" || String.eqb s "here" ||
  match s with
  | String "U" (String c s') => upper_alnum c && all_upper_alnum s'
  | _ => false
  end.

(* ================================================================= *)
(** * The Slack message *)

(** One block of an attachment. *)
Inductive block : Type :=
| section (text : string)
    (* {"type": "section", "text": {"type": "mrkdwn", "text": text}} *)
| divider
    (* {"type": "divider"} *)
| context (elements : list string).
    (* {"type": "context", "elements": [{"type": "mrkdwn", "text": t}, ...]} *)

Record attachment := Attachment {
  fallback : string;
  color : string;
  blocks : list block
}.

(** The keyword arguments of [chat_postMessage]. *)
Record message := Message {
  m_channel : string;
  m_text : string;
  m_attachments : list attachment
}.

(* ================================================================= *)
(** * The collaborators: process, operating system, clock, Slack *)

(** What the module reads from outside.  [clock n] is the [n]-th reading of
    [time.time()] of the run, kept in microseconds, the resolution a
    [timedelta] keeps.  [chat_postMessage n tok m] is what the [n]-th call
    of [WebClient(token=tok).chat_postMessage( **m )] does: it returns a
    response or raises. *)
Record platform := Platform {
  environ : gmap string string;
  sys_executable : string;
  sys_argv : list string;
  nodename : string;
  clock : nat -> Z;
  chat_postMessage : nat -> string -> message -> outcome string
}.

Inductive level : Type := DEBUG | ERROR.

(** What a run has done to the outside so far: the number of clock
    readings taken, the messages handed to [chat_postMessage] (oldest
    first), and the records given to the logger (oldest first). *)
Record world := World {
  ticks : nat;
  posted : list message;
  logged : list (level * string)
}.

Definition world0 : world := World 0 [] [].

(* ================================================================= *)
(** * The [notify] object *)

Record notify := Notify {
  channel : string;
  mentions : list string;
  token : string;
  error : option exception;
  t_start : option Z;
  t_end : option Z;
  func_name : option string
}.

Definition with_error (e : option exception) (self : notify) : notify :=
  Notify (channel self) (mentions self) (token self) e
         (t_start self) (t_end self) (func_name self).

Definition with_t_start (t : option Z) (self : notify) : notify :=
  Notify (channel self) (mentions self) (token self) (error self)
         t (t_end self) (func_name self).

Definition with_t_end (t : option Z) (self : notify) : notify :=
  Notify (channel self) (mentions self) (token self) (error self)
         (t_start self) t (func_name self).

Definition with_func_name (n : option string) (self : notify) : notify :=
  Notify (channel self) (mentions self) (token self) (error self)
         (t_start self) (t_end self) n.

(** The [mentions] argument of the constructor, when it is not [None]. *)
Inductive mentions_arg : Type :=
| a_str (s : string)
| a_iterable (l : list string).

(** The loop over [self.mentions] of the constructor. *)
Fixpoint check_mentions (l : list string) : outcome unit :=
  match l with
  | [] => Returns tt
  | mention :: l' =>
      if negb (_is_valid_mention mention)
      then Raises (ValueError
             ("Mention '" ++ mention ++ "' is not valid. Only 'channel', "
              ++ "'here', or user id ('U...') is acceptable."))
      else check_mentions l'
  end.

(** The value the constructor gives [self.mentions]. *)
Definition mentions_list (mentions : option mentions_arg) : list string :=
  match mentions with
  | None => []
  | Some (a_str s) => [s]
  | Some (a_iterable l) => l
  end.

Definition __init__ (pf : platform) (channel : string)
    (mentions : option mentions_arg) (token : option string)
  : outcome notify :=
  let self_mentions := mentions_list mentions in
  match check_mentions self_mentions with
  | Raises e => Raises e
  | Returns _ =>
      let resolved :=
        match token with
        | Some t => Returns t
        | None =>
            match environ pf !! "SLACK_API_TOKEN" with
            | Some t => Returns t
            | None => Raises (KeyError "SLACK_API_TOKEN")
            end
        end in
      match resolved with
      | Raises e => Raises e
      | Returns t =>
          Returns (Notify channel self_mentions t None None None None)
      end
  end.

(* ================================================================= *)
(** * Running methods: state and exceptions *)

(** A method runs against the one [notify] object it was called on and the
    outside world; it changes both and returns or raises.  Every closure
    produced by [__call__] refers to the same object, so the object is
    threaded through, not copied into the closure. *)
Definition state : Type := notify * world.

Definition M (X : Type) : Type := state -> outcome X * state.

Definition ret {X} (x : X) : M X := fun s => (Returns x, s).

Definition raise {X} (e : exception) : M X := fun s => (Raises e, s).

Definition bind {X Y} (m : M X) (k : X -> M Y) : M Y :=
  fun s =>
    match m s with
    | (Returns x, s') => k x s'
    | (Raises e, s') => (Raises e, s')
    end.

Declare Scope py_scope.
Delimit Scope py_scope with py.
Notation "x <- m ;; k" := (bind m (fun x => k))
  (at level 100, m at next level, right associativity) : py_scope.
Notation "m ;; k" := (bind m (fun _ => k))
  (at level 100, right associativity) : py_scope.
Local Open Scope py_scope.

(** [try: x = body / except <classes> as e: handler e / else: orelse x].
    An exception of the handler or of the [else] clause is not caught. *)
Definition try_except_else {X Y} (body : M X) (catches : exception -> bool)
    (handler : exception -> M Y) (orelse : X -> M Y) : M Y :=
  fun s =>
    match body s with
    | (Returns x, s') => orelse x s'
    | (Raises e, s') => if catches e then handler e s' else (Raises e, s')
    end.

Definition get_self : M notify := fun s => (Returns (fst s), s).

Definition update_self (f : notify -> notify) : M unit :=
  fun s => (Returns tt, (f (fst s), snd s)).

(** Lifting an expression that may raise. *)
Definition eval {X} (o : outcome X) : M X := fun s => (o, s).

(** [time.time()] *)
Definition time_time (pf : platform) : M Z :=
  fun s =>
    let w := snd s in
    (Returns (clock pf (ticks w)),
     (fst s, World (S (ticks w)) (posted w) (logged w))).

(** [logger.debug(text)], [logger.error(text)] *)
Definition logger_log (l : level) (text : string) : M unit :=
  fun s =>
    let w := snd s in
    (Returns tt, (fst s, World (ticks w) (posted w) (logged w ++ [(l, text)]))).

(** [slack.WebClient(token=tok).chat_postMessage( **m )] *)
Definition client_chat_postMessage (pf : platform) (tok : string)
    (m : message) : M string :=
  fun s =>
    let w := snd s in
    (chat_postMessage pf (List.length (posted w)) tok m,
     (fst s, World (ticks w) (posted w ++ [m]) (logged w))).

(* ================================================================= *)
(** * Strings and durations *)

Definition LF : string := String (ascii_of_nat 10) "".

(** [sep.join(l)] *)
Definition join (sep : string) (l : list string) : string :=
  String.concat sep l.

(** [s[:-3]] *)
Definition drop_last3 (s : string) : string :=
  substring 0 (String.length s - 3) s.

(** [os.path.basename(p)]: what follows the last slash. *)
Fixpoint basename_from (acc p : string) : string :=
  match p with
  | EmptyString => acc
  | String c p' =>
      if Ascii.eqb c "/" then basename_from "" p'
      else basename_from (acc ++ String c "") p'
  end.

Definition os_path_basename (p : string) : string := basename_from "" p.

(** ["%d" % z] *)
Definition fmt_d (z : Z) : string := NilZero.string_of_int (Z.to_int z).

(** [s.rjust(w, "0")] *)
Definition zfill (w : nat) (s : string) : string :=
  string_of_list_ascii (repeat "0"%char (w - String.length s)) ++ s.

(** ["%0wd" % z] *)
Definition fmt_0d (w : nat) (z : Z) : string :=
  if (z <? 0)%Z then "-" ++ zfill (w - 1) (fmt_d (- z)) else zfill w (fmt_d z).

(** A [datetime.timedelta], normalised as the class keeps it:
    [0 <= seconds < 86400] and [0 <= microseconds < 1000000]. *)
Record timedelta := Timedelta {
  days : Z;
  seconds : Z;
  microseconds : Z
}.

(** The [timedelta] of [us] microseconds: what [timedelta(seconds=x)]
    holds once it has rounded [x] to whole microseconds.  Clock readings
    being kept in microseconds here, [x] is their difference. *)
Definition timedelta_of (us : Z) : timedelta :=
  Timedelta (us / 86400000000)
            ((us mod 86400000000) / 1000000)
            (us mod 1000000).

(** [str(dt)], after [timedelta.__str__]: first the part made of days,
    hours, minutes and seconds, then the microseconds when there are any. *)
Definition timedelta_hms (dt : timedelta) : string :=
  let mm := (seconds dt / 60)%Z in
  let ss := (seconds dt mod 60)%Z in
  let hh := (mm / 60)%Z in
  let mm := (mm mod 60)%Z in
  let s := fmt_d hh ++ ":" ++ fmt_0d 2 mm ++ ":" ++ fmt_0d 2 ss in
  if (days dt =? 0)%Z then s
  else fmt_d (days dt) ++ " day"
       ++ (if (Z.abs (days dt) =? 1)%Z then "" else "s") ++ ", " ++ s.

Definition timedelta_str (dt : timedelta) : string :=
  let s := timedelta_hms dt in
  if (microseconds dt =? 0)%Z then s
  else s ++ "." ++ fmt_0d 6 (microseconds dt).

(** [self.t_end - self.t_start]; either may still be [None]. *)
Definition type_name (t : option Z) : string :=
  match t with Some _ => "float" | None => "NoneType" end.

Definition py_sub (a b : option Z) : outcome Z :=
  match a, b with
  | Some x, Some y => Returns (x - y)%Z
  | _, _ =>
      Raises (TypeError ("unsupported operand type(s) for -: '"
                         ++ type_name a ++ "' and '" ++ type_name b ++ "'"))
  end.

(** How an f-string shows [self.func_name]. *)
Definition fmt_name (n : option string) : string :=
  match n with Some s => s | None => "None" end.

(* ================================================================= *)
(** * [_create_message] *)

Definition render_mention (s : string) : string :=
  if String.eqb s "channel" || String.eqb s "here"
  then "<!" ++ s ++ ">"
  else "<@" ++ s ++ ">".

Definition _create_message (pf : platform) : M message :=
  self <- get_self ;;
  (* --- main text --- *)
  let prefix := join " " (map render_mention (mentions self)) in
  let msg := match error self with
             | None => "Execution succeeded!"
             | Some _ => "Execution failed!"
             end in
  let text := prefix ++ " *" ++ msg ++ "* (at function `"
              ++ fmt_name (func_name self) ++ "`)" in
  (* --- attachments --- *)
  (* i) command *)
  let command_name :=
    join " " (os_path_basename (sys_executable pf) :: sys_argv pf) in
  let command := section ("*Command*```" ++ command_name ++ "```") in
  (* ii) time elapsed *)
  elapsed <- eval (py_sub (t_end self) (t_start self)) ;;
  let dt := timedelta_of elapsed in
  let time_elapsed :=
    section ("*Time elapsed*" ++ LF ++ drop_last3 (timedelta_str dt)) in
  (* iv) divider *)
  let divider_ := divider in
  (* v) footer *)
  let footer := context ["Sent from *notify.py* at " ++ nodename pf] in
  match error self with
  | None =>
      (* in case of success *)
      ret (Message (channel self) text
             [Attachment "Details about the execution results." "#36a64f"
                [command; time_elapsed; divider_; footer]])
  | Some e =>
      (* iii) error message *)
      let error_msg :=
        section ("*Error message*" ++ LF
                 ++ "```" ++ exc_class e ++ ": " ++ exc_str e ++ "```") in
      (* in case of failure *)
      ret (Message (channel self) text
             [Attachment "Details about the execution results." "#cf0301"
                [command; time_elapsed; error_msg; divider_; footer]])
  end.

(* ================================================================= *)
(** * [_send] *)

Definition _send (pf : platform) : M Z :=
  self <- get_self ;;
  message <- _create_message pf ;;
  logger_log DEBUG "Sending a notification to Slack." ;;
  try_except_else (client_chat_postMessage pf (token self) message)
    (fun e => isinstance e "SlackApiError")
    (fun e =>
       logger_log ERROR ("Could not send a notification: " ++ exc_str e) ;;
       ret 1%Z)
    (fun response =>
       logger_log DEBUG response ;;
       ret 0%Z).

(* ================================================================= *)
(** * [__call__] and the wrapper *)

(** A Python function: its [__name__] and what a call with given arguments
    does.  Such a function acts neither on the notifier object nor on the
    outside world; [procedure], further down, is a function that does. *)
Record callable (A R : Type) := Callable {
  __name__ : string;
  call : A -> outcome R
}.
Arguments Callable {A R} _ _.
Arguments __name__ {A R} _.
Arguments call {A R} _ _.

Definition wrapper {A R} (pf : platform) (f : callable A R) (args : A) : M R :=
  t <- time_time pf ;;
  update_self (with_t_start (Some t)) ;;
  try_except_else (eval (call f args))
    (fun e => isinstance e "Exception")
    (fun e =>
       t <- time_time pf ;;
       update_self (with_t_end (Some t)) ;;
       update_self (with_error (Some e)) ;;
       _send pf ;;
       raise e)
    (fun res =>
       t <- time_time pf ;;
       update_self (with_t_end (Some t)) ;;
       _send pf ;;
       ret res).

Definition __call__ {A R} (pf : platform) (f : callable A R) : M (A -> M R) :=
  update_self (with_func_name (Some (__name__ f))) ;;
  ret (wrapper pf f).

(* ================================================================= *)
(** * The vocabulary of the specification *)

(** The sections of a notification, and the section a block of the code's
    message is, told by the kind of block and the label its text opens
    with. *)
Inductive section_kind : Type :=
| CommandSection
| DurationSection
| ErrorSection
| DividerSection
| FooterSection.

Definition block_kind (b : block) : option section_kind :=
  match b with
  | section text =>
      if String.prefix "*Command*" text then Some CommandSection
      else if String.prefix "*Time elapsed*" text then Some DurationSection
      else if String.prefix "*Error message*" text then Some ErrorSection
      else None
  | divider => Some DividerSection
  | context _ => Some FooterSection
  end.

(** The blocks of a message: those of its attachments, in order. *)
Definition message_blocks (m : message) : list block :=
  List.concat (map blocks (m_attachments m)).

(** The status phrase of the summary. *)
Definition status_phrase (err : option exception) : string :=
  match err with
  | None => "Execution succeeded!"
  | Some _ => "Execution failed!"
  end.

(** The summary text in the words of the specification: the mention prefix,
    space-separated and left out with its separator when there is no
    mention, the status phrase in bold, the function name in code style. *)
Definition summary_as_specified (ms : list string) (err : option exception)
    (fname : string) : string :=
  match ms with
  | [] => ""
  | _ :: _ => join " " (map render_mention ms) ++ " "
  end
  ++ "*" ++ status_phrase err ++ "*"
  ++ " (at function `" ++ fname ++ "`)".

(** The world after the message [m] has been handed to the client and
    the records [rs] have been logged. *)
Definition after_post (w : world) (m : message)
    (rs : list (level * string)) : world :=
  World (ticks w) (posted w ++ [m]) (logged w ++ rs).

(** The object and the world at the moment the wrapper calls [_send], the
    wrapper having been entered with [self] and [w]: two clock readings
    taken, both times recorded, and [err] in [self.error]. *)
Definition at_send (pf : platform) (self : notify) (w : world)
    (err : option exception) : state :=
  (Notify (channel self) (mentions self) (token self) err
          (Some (clock pf (ticks w))) (Some (clock pf (S (ticks w))))
          (func_name self),
   World (S (S (ticks w))) (posted w) (logged w)).

(** The number of delivery attempts a run has made. *)
Definition attempts (s : state) : nat := List.length (posted (snd s)).

(* ================================================================= *)
(** * Sample runs *)

Module Sample.

(** A clock whose readings are 1.5 s apart. *)
Definition clock_1500ms (n : nat) : Z := (1700000000000000 + 1500000 * Z.of_nat n)%Z.

(** A clock whose readings are 5 s apart, to the microsecond. *)
Definition clock_5s (n : nat) : Z := (1700000000000000 + 5000000 * Z.of_nat n)%Z.

Definition slack_ok : nat -> string -> message -> outcome string :=
  fun _ _ _ => Returns "{'ok': True}".

Definition slack_api_error : nat -> string -> message -> outcome string :=
  fun _ _ _ => Raises (SlackApiError "invalid_auth").

Definition slack_unreachable : nat -> string -> message -> outcome string :=
  fun _ _ _ => Raises (ConnectionError "Network is unreachable").

Definition machine (clk : nat -> Z)
    (slack : nat -> string -> message -> outcome string) : platform :=
  Platform {[ "SLACK_API_TOKEN" := "xoxb-env" ]}
           "/usr/bin/python3" ["train.py"; "--lr"; "0.1"] "gpu01" clk slack.

Definition pf_ok : platform := machine clock_1500ms slack_ok.
Definition pf_api_error : platform := machine clock_1500ms slack_api_error.
Definition pf_unreachable : platform := machine clock_1500ms slack_unreachable.
Definition pf_5s : platform := machine clock_5s slack_ok.

(** [notify('#ops', token='xoxb-1')] and [notify('#ops', ['channel',
    'U024BE7LH'], 'xoxb-1')], as the constructor leaves them. *)
Definition plain : notify := Notify "#ops" [] "xoxb-1" None None None None.
Definition loud : notify :=
  Notify "#ops" ["channel"; "U024BE7LH"] "xoxb-1" None None None None.

(** An object after the decoration of [main], holding the times of a call
    that took 1.5 s. *)
Definition timed (self : notify) : notify :=
  with_func_name (Some "main")
    (with_t_end (Some (clock_1500ms 1))
       (with_t_start (Some (clock_1500ms 0)) self)).

Definition answer : callable unit Z :=
  Callable "main" (fun _ => Returns 42%Z).

Definition bad_input : callable unit Z :=
  Callable "main" (fun _ => Raises (ValueError "bad input")).

Definition interrupted : callable unit Z :=
  Callable "main" (fun _ => Raises KeyboardInterrupt).

(** Raises on [false], returns on [true]. *)
Definition job : callable bool Z :=
  Callable "job"
    (fun good : bool =>
       if good then Returns 42%Z else Raises (ValueError "bad input")).

Definition train : callable unit Z :=
  Callable "train" (fun _ => Returns 1%Z).

Definition evaluate : callable unit Z :=
  Callable "evaluate" (fun _ => Returns 2%Z).

(** [w = n(f); w(a)] *)
Definition decorate_and_call {A R} (pf : platform) (f : callable A R)
    (a : A) : M R :=
  w <- __call__ pf f ;;
  w a.

(** [w = n(job)], a call [w(False)] whose exception the caller catches,
    then a call [w(True)]. *)
Definition fail_then_succeed (pf : platform) : M Z :=
  w <- __call__ pf job ;;
  try_except_else (w false) (fun _ => true)
    (fun _ => ret tt) (fun _ => ret tt) ;;
  w true.

(** [wf = n(train); wf()] *)
Definition train_alone (pf : platform) : M Z :=
  wf <- __call__ pf train ;;
  wf tt.

(** [wf = n(train); wg = n(evaluate); wf()] *)
Definition train_after_evaluate_decorated (pf : platform) : M Z :=
  wf <- __call__ pf train ;;
  wg <- __call__ pf evaluate ;;
  wf tt.

End Sample.

(* ================================================================= *)
(** * Wrapped functions that act on the object and the world *)

(** A Python function that may itself act on the notifier object and on
    the outside world while it runs: the wrapper runs it with the shared
    object in reach, so it may call a function decorated by the same
    object (itself, when it is recursive), decorate through the object or
    assign its attributes, and it may read the clock, post and log. *)
Record procedure (A R : Type) := Procedure {
  p_name : string;
  p_call : A -> M R
}.
Arguments Procedure {A R} _ _.
Arguments p_name {A R} _.
Arguments p_call {A R} _ _.

(** The wrapper around such a function: the same statements as [wrapper],
    the call of the wrapped function running in the state. *)
Definition wrapper_st {A R} (pf : platform) (f : procedure A R) (args : A)
  : M R :=
  t <- time_time pf ;;
  update_self (with_t_start (Some t)) ;;
  try_except_else (p_call f args)
    (fun e => isinstance e "Exception")
    (fun e =>
       t <- time_time pf ;;
       update_self (with_t_end (Some t)) ;;
       update_self (with_error (Some e)) ;;
       _send pf ;;
       raise e)
    (fun res =>
       t <- time_time pf ;;
       update_self (with_t_end (Some t)) ;;
       _send pf ;;
       ret res).

(** A function that acts on neither, as a [procedure]. *)
Definition pure_procedure {A R} (f : callable A R) : procedure A R :=
  Procedure (__name__ f) (fun args => eval (call f args)).

(** The object and the world when the wrapped function starts. *)
Definition entered (pf : platform) (s : state) : state :=
  (with_t_start (Some (clock pf (ticks (snd s)))) (fst s),
   World (S (ticks (snd s))) (posted (snd s)) (logged (snd s))).

(** The object and the world when the wrapper calls [_send], the wrapped
    function having left them as [s]. *)
Definition leaving (pf : platform) (s : state) (raised : option exception)
  : state :=
  let self := with_t_end (Some (clock pf (ticks (snd s)))) (fst s) in
  (match raised with
   | Some e => with_error (Some e) self
   | None => self
   end,
   World (S (ticks (snd s))) (posted (snd s)) (logged (snd s))).

(** What the constructor and the decoration set, and no call should
    change. *)
Definition configuration (self : notify)
  : string * list string * string * option string :=
  (channel self, mentions self, token self, func_name self).

(** The wrapped function, called on [a] in state [s], returns or raises an
    instance of [Exception] and leaves the object, the posts and the
    clock as they are. *)
Definition quiet {A R} (f : procedure A R) (a : A) (s : state) : Prop :=
  (forall e, fst (p_call f a s) = Raises e -> isinstance e "Exception" = true) /\
  fst (snd (p_call f a s)) = fst s /\
  posted (snd (snd (p_call f a s))) = posted (snd s) /\
  ticks (snd (snd (p_call f a s))) = ticks (snd s).

(** Calls of one decorated function in sequence, on the arguments [args]
    in turn, the caller catching whatever a call raises: the object and
    the world after the last call. *)
Fixpoint run_calls_st {A R} (pf : platform) (f : procedure A R)
    (args : list A) (s : state) : state :=
  match args with
  | [] => s
  | a :: rest => run_calls_st pf f rest (snd (wrapper_st pf f a s))
  end.

(* ================================================================= *)
(** * Further vocabulary *)

(** The colour of the attachment, by the stored error. *)
Definition colour_of (err : option exception) : string :=
  match err with
  | None => "#36a64f"
  | Some _ => "#cf0301"
  end.

(** A machine with an empty environment. *)
Definition pf_bare : platform :=
  Platform ∅ "python" [] "laptop" Sample.clock_1500ms Sample.slack_ok.

(** A client that refuses the token [xoxb-1] and no other. *)
Definition slack_revoked : nat -> string -> message -> outcome string :=
  fun _ tok _ =>
    if String.eqb tok "xoxb-1" then Raises (SlackApiError "token_revoked")
    else Returns "{'ok': True}".

Definition pf_revoked : platform :=
  Sample.machine Sample.clock_1500ms slack_revoked.

(** [work], and a function of the same name that calls the decorated
    [work]: one level of a recursive decorated function. *)
Definition work : callable unit Z := Callable "work" (fun _ => Returns 1%Z).

Definition work_again (pf : platform) : procedure unit Z :=
  Procedure "work" (fun _ => wrapper_st pf (pure_procedure work) tt).

(** A function that calls [bad_input], decorated by the same object,
    catches what it raises and returns 0. *)
Definition tolerant (pf : platform) : procedure unit Z :=
  Procedure "tolerant"
    (fun _ =>
       try_except_else (wrapper_st pf (pure_procedure Sample.bad_input) tt)
         (fun _ => true) (fun _ => ret 0%Z) (fun v => ret v)).

(** A function that keeps to itself: it logs, then returns its argument
    doubled or raises [ValueError] on a negative one. *)
Definition doubling : procedure Z Z :=
  Procedure "doubling"
    (fun x =>
       logger_log DEBUG "doubling" ;;
       if (x <? 0)%Z then raise (ValueError "negative") else ret (2 * x)%Z).

(** Decimal digits, to reason about ["%0wd"]: the digit [k] put before the
    little-endian writing [d], the [w] lowest digits of [n] in
    little-endian order, and the character of a digit. *)
Definition digit_of (k : N) (d : Decimal.uint) : Decimal.uint :=
  match k with
  | 0 => Decimal.D0 d | 1 => Decimal.D1 d | 2 => Decimal.D2 d
  | 3 => Decimal.D3 d | 4 => Decimal.D4 d | 5 => Decimal.D5 d
  | 6 => Decimal.D6 d | 7 => Decimal.D7 d | 8 => Decimal.D8 d
  | _ => Decimal.D9 d
  end%N.

Fixpoint digits_lu (w : nat) (n : N) : Decimal.uint :=
  match w with
  | O => Decimal.Nil
  | S w' => digit_of (n mod 10) (digits_lu w' (n / 10))
  end.

Definition digit_char (k : N) : string :=
  NilEmpty.string_of_uint (digit_of k Decimal.Nil).

(* ================================================================= *)
(** * Facts about strings *)

(** Concatenation computes by its first argument in the proofs below. *)
#[local] Arguments String.append !s1 s2 : simpl nomatch.

Lemma append_nil_r (s : string) : s ++ "" = s.
Proof. induction s as [|c s IH]; simpl; [reflexivity | now rewrite IH]. Qed.

Lemma append_assoc (s1 s2 s3 : string) : (s1 ++ s2) ++ s3 = s1 ++ (s2 ++ s3).
Proof. induction s1 as [|c s1 IH]; simpl; [reflexivity | now rewrite IH]. Qed.

Lemma append_eq_nil (s1 s2 : string) : s1 ++ s2 = "" -> s1 = "" /\ s2 = "".
Proof. destruct s1; simpl; [auto | discriminate]. Qed.

(** A non-empty concatenation starts in its first part, or the first part is
    empty and it starts in the second. *)
Lemma append_eq_String (s1 s2 : string) (c : ascii) (s : string) :
  s1 ++ s2 = String c s ->
  (s1 = "" /\ s2 = String c s) \/
  (exists s1', s1 = String c s1' /\ s = s1' ++ s2).
Proof.
  destruct s1 as [|c1 s1]; simpl; intros H.
  - left. auto.
  - right. injection H as -> <-. eauto.
Qed.

(* ================================================================= *)
(** * The matcher computes the language of the pattern *)

Module re_facts.
Import re.

Create HintDb re.
#[local] Hint Constructors matches : re.

Lemma matches_nil_nullable r s : matches r s -> s = "" -> nullable r = true.
Proof.
  induction 1 as [ | | | r1 r2 s1 s2 _ IH1 _ IH2 | r1 r2 s _ IH
                 | r1 r2 s _ IH | | ]; intros E; simpl; try discriminate;
    try reflexivity.
  - apply append_eq_nil in E as [-> ->]. now rewrite IH1, IH2.
  - now rewrite IH.
  - rewrite IH by assumption. apply orb_true_r.
Qed.

Lemma nullable_matches_nil r : nullable r = true -> matches r "".
Proof.
  induction r as [ | | | | r1 IH1 r2 IH2 | r1 IH1 r2 IH2 | r IH ];
    simpl; intros E; try discriminate; auto with re.
  - apply andb_true_iff in E as [E1 E2].
    change "" with ("" ++ ""). auto with re.
  - apply orb_true_iff in E as [E | E]; auto with re.
Qed.

Lemma matches_cons_deriv r s0 :
  matches r s0 -> forall c s, s0 = String c s -> matches (deriv c r) s.
Proof.
  induction 1 as [ | a | lo hi a Ha | r1 r2 s1 s2 H1 IH1 H2 IH2
                 | r1 r2 s0 _ IH | r1 r2 s0 _ IH
                 | | r s1 s2 H1 IH1 H2 IH2 ]; intros c s E; simpl.
  - discriminate.
  - injection E as -> <-. rewrite Ascii.eqb_refl. constructor.
  - injection E as -> <-. rewrite Ha. constructor.
  - apply append_eq_String in E as [[-> ->] | (s1' & -> & ->)].
    + rewrite (matches_nil_nullable _ _ H1 eq_refl).
      apply m_alt_r. now apply IH2.
    + destruct (nullable r1).
      * apply m_alt_l. constructor; [now apply IH1 | assumption].
      * constructor; [now apply IH1 | assumption].
  - apply m_alt_l. now apply IH.
  - apply m_alt_r. now apply IH.
  - discriminate.
  - apply append_eq_String in E as [[-> ->] | (s1' & -> & ->)].
    + now apply IH2.
    + constructor; [now apply IH1 | assumption].
Qed.

Lemma deriv_matches_cons c r :
  forall s, matches (deriv c r) s -> matches r (String c s).
Proof.
  induction r as [ | | a | lo hi | r1 IH1 r2 IH2 | r1 IH1 r2 IH2 | r IH ];
    simpl; intros s H.
  - inversion H.
  - inversion H.
  - destruct (Ascii.eqb_spec a c) as [-> | _]; inversion H; subst.
    constructor.
  - destruct (in_range lo hi c) eqn:E; inversion H; subst.
    now constructor.
  - destruct (nullable r1) eqn:N.
    + inversion H as [ | | | | ? ? ? H' | ? ? ? H' | | ]; subst.
      * inversion H' as [ | | | ? ? s1 s2 Ha Hb | | | | ]; subst.
        change (String c (s1 ++ s2)) with (String c s1 ++ s2).
        constructor; auto.
      * change (String c s) with ("" ++ String c s).
        constructor; [now apply nullable_matches_nil | auto].
    + inversion H as [ | | | ? ? s1 s2 Ha Hb | | | | ]; subst.
      change (String c (s1 ++ s2)) with (String c s1 ++ s2).
      constructor; auto.
  - inversion H; subst; auto with re.
  - inversion H as [ | | | ? ? s1 s2 Ha Hb | | | | ]; subst.
    change (String c (s1 ++ s2)) with (String c s1 ++ s2).
    constructor; auto.
Qed.

(** [fullmatch] decides membership in the language. *)
Lemma fullmatch_spec r s : fullmatch r s = true <-> matches r s.
Proof.
  revert r. induction s as [|c s IH]; intros r; simpl.
  - split; [apply nullable_matches_nil |].
    intros H. now apply (matches_nil_nullable r "").
  - rewrite IH. split; [apply deriv_matches_cons |].
    intros H. now apply (matches_cons_deriv r (String c s)).
Qed.

(** [match_] decides whether a prefix is in the language. *)
Lemma match_spec r s :
  match_ r s = true <-> exists p q, s = p ++ q /\ matches r p.
Proof.
  revert r. induction s as [|c s IH]; intros r; simpl.
  - rewrite orb_false_r. split.
    + intros N. exists "", "". split; [reflexivity |].
      now apply nullable_matches_nil.
    + intros (p & q & E & H). symmetry in E.
      apply append_eq_nil in E as [-> _].
      now apply (matches_nil_nullable r "").
  - rewrite orb_true_iff, IH. split.
    + intros [N | (p & q & -> & H)].
      * exists "", (String c s). split; [reflexivity |].
        now apply nullable_matches_nil.
      * exists (String c p), q. split; [reflexivity |].
        now apply deriv_matches_cons.
    + intros (p & q & E & H). destruct p as [|c' p]; simpl in E.
      * left. now apply (matches_nil_nullable r "").
      * injection E as <- ->. right. exists p, q. split; [reflexivity |].
        now apply (matches_cons_deriv r (String c p)).
Qed.

End re_facts.

(* ================================================================= *)
(** * What [_is_valid_mention] accepts *)

Section valid_mention.
Import re re_facts.

Lemma Word_matches w s : matches (Word w) s <-> s = w.
Proof.
  revert s. induction w as [|c w IH]; intros s; simpl; split.
  - inversion 1. reflexivity.
  - intros ->. constructor.
  - inversion 1 as [ | | | ? ? s1 s2 H1 H2 | | | | ]; subst.
    inversion H1; subst. apply IH in H2 as ->. reflexivity.
  - intros ->. change (String c w) with (String c "" ++ w).
    constructor; [constructor | now apply IH].
Qed.

Lemma alnum_matches s :
  matches alnum s <-> exists c, s = String c "" /\ upper_alnum c = true.
Proof.
  unfold alnum, upper_alnum. split.
  - intros H.
    inversion H as [ | | | | ? ? ? H' | ? ? ? H' | | ]; subst;
      inversion H'; subst; eexists; split; try reflexivity;
      apply orb_true_iff; auto.
  - intros (c & -> & [E | E]%orb_true_iff).
    + apply m_alt_l. now constructor.
    + apply m_alt_r. now constructor.
Qed.

Lemma alnum_star_matches s :
  matches (Star alnum) s <-> all_upper_alnum s = true.
Proof.
  split.
  - intros H. remember (Star alnum) as r eqn:Er.
    induction H as [ | | | | | | | r' s1 s2 H1 _ H2 IH2 ];
      try discriminate; [reflexivity |].
    injection Er as ->.
    apply alnum_matches in H1 as (c & -> & Hc). simpl.
    rewrite Hc. now apply IH2.
  - induction s as [|c s IH]; simpl; intros H.
    + constructor.
    + apply andb_true_iff in H as [Hc Hs].
      change (String c s) with (String c "" ++ s).
      constructor; [apply alnum_matches; eauto | auto].
Qed.

(** The language of the pattern is the three documented forms. *)
Lemma valid_str_matches s : matches valid_str s <-> mention_form s = true.
Proof.
  unfold valid_str, mention_form, Plus.
  rewrite !orb_true_iff, !String.eqb_eq. split.
  - intros H.
    inversion H as [ | | | | ? ? ? H1 | ? ? ? H1 | | ]; subst.
    { apply (Word_matches "channel") in H1. auto. }
    inversion H1 as [ | | | | ? ? ? H2 | ? ? ? H2 | | ]; subst.
    { apply (Word_matches "here") in H2. auto. }
    right.
    inversion H2 as [ | | | ? ? s1 s2 Ha Hb | | | | ]; subst.
    inversion Ha; subst.
    inversion Hb as [ | | | ? ? s3 s4 Hc Hd | | | | ]; subst.
    apply alnum_matches in Hc as (c & -> & Hc).
    apply alnum_star_matches in Hd. simpl. now rewrite Hc, Hd.
  - intros [[-> | ->] | H].
    + apply m_alt_l. now apply (Word_matches "channel").
    + apply m_alt_r, m_alt_l. now apply (Word_matches "here").
    + apply m_alt_r, m_alt_r.
      destruct s as [|u [|c s]]; try discriminate.
      { destruct u as [[] [] [] [] [] [] [] []]; discriminate. }
      destruct (Ascii.eqb_spec u "U") as [-> | Hu].
      * apply andb_true_iff in H as [Hc Hs].
        change (String "U" (String c s))
          with (String "U" "" ++ (String c "" ++ s)).
        constructor; [constructor |].
        constructor; [apply alnum_matches; eauto |].
        now apply alnum_star_matches.
      * exfalso.
        destruct u as [[] [] [] [] [] [] [] []];
          try discriminate; now apply Hu.
Qed.

(** [re.fullmatch] with the same pattern would accept the three forms and
    nothing else. *)
Lemma fullmatch_valid_str s : fullmatch valid_str s = mention_form s.
Proof.
  apply eq_true_iff_eq. rewrite fullmatch_spec. apply valid_str_matches.
Qed.

(** [re.match] accepts a string as soon as it begins with one of the three
    forms. *)
Lemma _is_valid_mention_spec s :
  _is_valid_mention s = true <->
  exists p q, s = p ++ q /\ mention_form p = true.
Proof.
  unfold _is_valid_mention. rewrite match_spec.
  split; intros (p & q & E & H); exists p, q; split; auto;
    now apply valid_str_matches.
Qed.

(** The three forms themselves are accepted. *)
Lemma mention_form_valid s :
  mention_form s = true -> _is_valid_mention s = true.
Proof.
  intros H. apply _is_valid_mention_spec. exists s, "".
  now rewrite append_nil_r.
Qed.

End valid_mention.

(* ================================================================= *)
(** * The message builder, the delivery step and the wrapper, unfolded *)

Section methods.
Variable pf : platform.

(** With both times recorded, [_create_message] returns a message, leaves
    the object and the world as they are, and the message has the
    channel, the text and the blocks written out here. *)
Lemma _create_message_eq (self : notify) (w : world) (t0 t1 : Z) :
  t_start self = Some t0 ->
  t_end self = Some t1 ->
  exists m,
    _create_message pf (self, w) = (Returns m, (self, w)) /\
    m_channel m = channel self /\
    m_text m =
      join " " (map render_mention (mentions self))
      ++ " *" ++ status_phrase (error self) ++ "* (at function `"
      ++ fmt_name (func_name self) ++ "`)" /\
    message_blocks m =
      List.app
        [section ("*Command*```"
                  ++ join " " (os_path_basename (sys_executable pf)
                               :: sys_argv pf)
                  ++ "```");
         section ("*Time elapsed*" ++ LF
                  ++ drop_last3 (timedelta_str (timedelta_of (t1 - t0))))]
        (List.app
           match error self with
           | None => []
           | Some e =>
               [section ("*Error message*" ++ LF ++ "```" ++ exc_class e
                         ++ ": " ++ exc_str e ++ "```")]
           end
           [divider; context ["Sent from *notify.py* at " ++ nodename pf]]).
Proof.
  intros H0 H1.
  unfold _create_message, bind, get_self, eval, ret. cbn [fst snd].
  rewrite H0, H1. cbn [py_sub].
  destruct (error self) as [e|]; eexists; repeat split.
Qed.

(** Without a start time the builder raises [TypeError]. *)
Lemma _create_message_no_start (self : notify) (w : world) :
  t_start self = None ->
  exists e, _create_message pf (self, w) = (Raises e, (self, w)) /\
            exc_class e = "TypeError".
Proof.
  intros H0.
  unfold _create_message, bind, get_self, eval, ret. cbn [fst snd].
  rewrite H0. destruct (t_end self); eexists; split; reflexivity.
Qed.

(** The delivery step: one message is built and handed to the client
    once; a response gives status 0, a [SlackApiError] is logged and gives
    status 1, any other exception leaves [_send]. *)
Lemma _send_eq (self : notify) (w : world) (t0 t1 : Z) :
  t_start self = Some t0 ->
  t_end self = Some t1 ->
  exists m,
    _create_message pf (self, w) = (Returns m, (self, w)) /\
    _send pf (self, w) =
      match chat_postMessage pf (List.length (posted w)) (token self) m with
      | Returns response =>
          (Returns 0%Z,
           (self, after_post w m
                    [(DEBUG, "Sending a notification to Slack.");
                     (DEBUG, response)]))
      | Raises e =>
          if isinstance e "SlackApiError"
          then (Returns 1%Z,
                (self, after_post w m
                         [(DEBUG, "Sending a notification to Slack.");
                          (ERROR, "Could not send a notification: "
                                  ++ exc_str e)]))
          else (Raises e,
                (self, after_post w m
                         [(DEBUG, "Sending a notification to Slack.")]))
      end.
Proof.
  intros H0 H1.
  destruct (_create_message_eq self w t0 t1 H0 H1) as (m & Hm & _).
  exists m. split; [exact Hm |].
  unfold _send, bind at 1, get_self. cbn [fst snd].
  unfold bind at 1. rewrite Hm.
  unfold bind, logger_log, try_except_else, client_chat_postMessage, ret,
    after_post.
  cbn [fst snd ticks posted logged].
  destruct (chat_postMessage pf _ _ _) as [response | e].
  - now rewrite <- app_assoc.
  - destruct (isinstance e "SlackApiError"); [| reflexivity].
    now rewrite <- app_assoc.
Qed.

(** The wrapper, by the outcome of the wrapped function. *)
Lemma wrapper_eq {A R} (f : callable A R) (a : A) (self : notify)
    (w : world) :
  wrapper pf f a (self, w) =
    match call f a with
    | Returns res =>
        match _send pf (at_send pf self w (error self)) with
        | (Returns _, s') => (Returns res, s')
        | (Raises e', s') => (Raises e', s')
        end
    | Raises e =>
        if isinstance e "Exception"
        then match _send pf (at_send pf self w (Some e)) with
             | (Returns _, s') => (Raises e, s')
             | (Raises e', s') => (Raises e', s')
             end
        else (Raises e,
              (with_t_start (Some (clock pf (ticks w))) self,
               World (S (ticks w)) (posted w) (logged w)))
    end.
Proof.
  unfold wrapper, bind at 1, time_time. cbn [fst snd].
  unfold bind at 1, update_self. cbn [fst snd].
  unfold try_except_else, eval.
  destruct (call f a) as [res | e].
  - unfold bind at 1, time_time. cbn [fst snd ticks posted logged].
    unfold bind at 1, update_self. cbn [fst snd].
    unfold bind at 1, at_send, with_t_end, with_t_start, ret.
    cbn [channel mentions token error t_start t_end func_name].
    now destruct (_send pf _) as [[status | e'] s'].
  - destruct (isinstance e "Exception"); [| reflexivity].
    unfold bind at 1, time_time. cbn [fst snd ticks posted logged].
    unfold bind at 1, update_self. cbn [fst snd].
    unfold bind at 1, update_self. cbn [fst snd].
    unfold bind at 1, at_send, with_error, with_t_end, with_t_start, raise.
    cbn [channel mentions token error t_start t_end func_name].
    now destruct (_send pf _) as [[status | e'] s'].
Qed.

End methods.

(* ================================================================= *)
(** * The caller's outcome *)

Section outcome.
Context {A R : Type}.
Variable pf : platform.

(** The times are recorded when the wrapper reaches [_send]. *)
Lemma at_send_times (self : notify) (w : world) (err : option exception) :
  t_start (fst (at_send pf self w err)) = Some (clock pf (ticks w)) /\
  t_end (fst (at_send pf self w err)) = Some (clock pf (S (ticks w))).
Proof. split; reflexivity. Qed.

(** [_send] from the wrapper, written out. *)
Lemma _send_at_send (self : notify) (w : world) (err : option exception) :
  exists m,
    _create_message pf (at_send pf self w err) =
      (Returns m, at_send pf self w err) /\
    _send pf (at_send pf self w err) =
      match chat_postMessage pf (List.length (posted w)) (token self) m with
      | Returns response =>
          (Returns 0%Z,
           (fst (at_send pf self w err),
            after_post (snd (at_send pf self w err)) m
              [(DEBUG, "Sending a notification to Slack.");
               (DEBUG, response)]))
      | Raises e =>
          if isinstance e "SlackApiError"
          then (Returns 1%Z,
                (fst (at_send pf self w err),
                 after_post (snd (at_send pf self w err)) m
                   [(DEBUG, "Sending a notification to Slack.");
                    (ERROR, "Could not send a notification: "
                            ++ exc_str e)]))
          else (Raises e,
                (fst (at_send pf self w err),
                 after_post (snd (at_send pf self w err)) m
                   [(DEBUG, "Sending a notification to Slack.")]))
      end.
Proof.
  destruct (at_send_times self w err) as [H0 H1].
  destruct (_send_eq pf _ (snd (at_send pf self w err)) _ _ H0 H1)
    as (m & Hm & Hs).
  exists m. split; [exact Hm | exact Hs].
Qed.

(** Whatever the client does, [_send] from the wrapper hands it exactly
    one message. *)
Lemma _send_posts_once (self : notify) (w : world) (err : option exception) :
  attempts (snd (_send pf (at_send pf self w err))) = S (attempts (self, w)).
Proof.
  destruct (_send_at_send self w err) as (m & _ & ->).
  unfold attempts.
  destruct (chat_postMessage pf _ _ _) as [r | e];
    [| destruct (isinstance e "SlackApiError")];
    cbn [snd fst after_post at_send posted];
    rewrite length_app; cbn [List.length]; lia.
Qed.


(** A wrapped function that raises outside [Exception] is not reported:
    the handler of the wrapper does not run. *)
Lemma wrapper_skips_send (f : callable A R) (a : A) (s : state)
    (e : exception) :
  call f a = Raises e ->
  isinstance e "Exception" = false ->
  fst (wrapper pf f a s) = Raises e /\
  attempts (snd (wrapper pf f a s)) = attempts s.
Proof.
  intros Hf He. destruct s as [self w]. rewrite wrapper_eq, Hf, He.
  split; reflexivity.
Qed.

(** C3 (amended). Exactly-once delivery: for every call to a decorated
    function whose wrapped function returns normally or raises an
    instance of [Exception], exactly one call of the client's send
    occurs. *)
Theorem wrapper_sends_once (f : callable A R) (a : A) (s : state) :
  (forall e, call f a = Raises e -> isinstance e "Exception" = true) ->
  attempts (snd (wrapper pf f a s)) = S (attempts s).
Proof.
  intros Hexc. destruct s as [self w]. rewrite wrapper_eq.
  destruct (call f a) as [res | e].
  - rewrite <- (_send_posts_once self w (error self)).
    now destruct (_send pf _) as [[status | e'] s'].
  - rewrite (Hexc e eq_refl).
    rewrite <- (_send_posts_once self w (Some e)).
    now destruct (_send pf _) as [[status | e'] s'].
Qed.

(** C5 (amended). Delivery-failure isolation: when the client's send,
    called with the token of the object and the message built, raises
    [SlackApiError], the delivery step returns status 1, the failure is
    logged at error severity, and the decorated call has the outcome of
    the wrapped function. *)
Theorem delivery_failure_isolated (f : callable A R) (a : A)
    (self : notify) (w : world) (e : exception) (m : message) :
  let err := match call f a with
             | Returns _ => error self
             | Raises e' => Some e'
             end in
  fst (_create_message pf (at_send pf self w err)) = Returns m ->
  chat_postMessage pf (List.length (posted w)) (token self) m = Raises e ->
  isinstance e "SlackApiError" = true ->
  (forall e', call f a = Raises e' -> isinstance e' "Exception" = true) ->
  fst (_send pf (at_send pf self w err)) = Returns 1%Z /\
  fst (wrapper pf f a (self, w)) = call f a /\
  logged (snd (snd (wrapper pf f a (self, w)))) =
    List.app (logged w)
      [(DEBUG, "Sending a notification to Slack.");
       (ERROR, "Could not send a notification: " ++ exc_str e)].
Proof.
  intros err Hm Hfail Hapi Hexc.
  assert (Hsend :
            _send pf (at_send pf self w err) =
              (Returns 1%Z,
               (fst (at_send pf self w err),
                after_post (snd (at_send pf self w err)) m
                  [(DEBUG, "Sending a notification to Slack.");
                   (ERROR, "Could not send a notification: "
                           ++ exc_str e)]))).
  { destruct (_send_at_send self w err) as (m' & Hm' & ->).
    rewrite Hm' in Hm. cbn [fst] in Hm. injection Hm as ->.
    now rewrite Hfail, Hapi. }
  split; [now rewrite Hsend |].
  rewrite wrapper_eq. subst err.
  destruct (call f a) as [res | e'].
  - rewrite Hsend. split; reflexivity.
  - rewrite (Hexc e' eq_refl), Hsend. split; reflexivity.
Qed.

End outcome.

(* ================================================================= *)
(** * The message *)

Section message.
Variable pf : platform.

(** C4. Message structure: with no stored error the message has exactly
    the blocks Command, Duration, Divider, Footer, in that order, and so
    no error section; with a stored error it has exactly the blocks
    Command, Duration, Error, Divider, Footer, in that order, and the
    error section shows the class name and the message of the captured
    exception. *)
Theorem message_sections (self : notify) (w : world) (t0 t1 : Z) :
  t_start self = Some t0 ->
  t_end self = Some t1 ->
  exists m,
    fst (_create_message pf (self, w)) = Returns m /\
    match error self with
    | None =>
        map block_kind (message_blocks m) =
          [Some CommandSection; Some DurationSection;
           Some DividerSection; Some FooterSection]
    | Some e =>
        map block_kind (message_blocks m) =
          [Some CommandSection; Some DurationSection; Some ErrorSection;
           Some DividerSection; Some FooterSection] /\
        message_blocks m !! 2%nat =
          Some (section ("*Error message*" ++ LF ++ "```" ++ exc_class e
                         ++ ": " ++ exc_str e ++ "```"))
    end.
Proof.
  intros H0 H1.
  destruct (_create_message_eq pf self w t0 t1 H0 H1)
    as (m & Hm & _ & _ & Hb).
  exists m. rewrite Hm, Hb. split; [reflexivity |].
  destruct (error self) as [e|]; [split |]; reflexivity.
Qed.

Lemma join_cons_append (x : string) (l : list string) (t : string) :
  (join " " (x :: l) ++ " ") ++ t = join " " (x :: l) ++ " " ++ t.
Proof. apply append_assoc. Qed.

(** C8 (amended). Summary text: the summary is the mention prefix
    ([channel] and [here] rendered as broadcast references, any other
    mention as a direct reference, space-separated), one space, the bold
    status phrase, and the function name in code style.  The separating
    space is always there: with a non-empty mention list the summary is
    the one specified, with an empty list it is the one specified after
    one leading space. *)
Theorem summary_text (self : notify) (w : world) (t0 t1 : Z) :
  t_start self = Some t0 ->
  t_end self = Some t1 ->
  exists m,
    fst (_create_message pf (self, w)) = Returns m /\
    m_text m =
      match mentions self with
      | [] => " "
      | _ :: _ => ""
      end
      ++ summary_as_specified (mentions self) (error self)
           (fmt_name (func_name self)) /\
    render_mention "channel" = "<!channel>" /\
    render_mention "here" = "<!here>" /\
    forall u, u <> "channel" -> u <> "here" ->
              render_mention u = "<@" ++ u ++ ">".
Proof.
  intros H0 H1.
  destruct (_create_message_eq pf self w t0 t1 H0 H1)
    as (m & Hm & _ & Ht & _).
  exists m. rewrite Hm, Ht. repeat split.
  - unfold summary_as_specified.
    destruct (mentions self) as [|x l]; [reflexivity |].
    cbn [map]. now rewrite join_cons_append.
  - intros u Hc Hh. unfold render_mention.
    apply String.eqb_neq in Hc, Hh. now rewrite Hc, Hh.
Qed.

End message.

(* ================================================================= *)
(** * The constructor *)

Lemma check_mentions_valid (l : list string) :
  Forall (fun mention => _is_valid_mention mention = true) l ->
  check_mentions l = Returns tt.
Proof.
  induction 1 as [|mention l Hm _ IH]; simpl; [reflexivity |].
  now rewrite Hm.
Qed.

(** The first mention that is not valid stops the constructor. *)
Lemma check_mentions_invalid (l : list string) :
  Exists (fun mention => _is_valid_mention mention = false) l ->
  exists e, check_mentions l = Raises e /\ exc_class e = "ValueError".
Proof.
  induction 1 as [mention l Hm | mention l _ IH]; simpl.
  - rewrite Hm. simpl. eauto.
  - destruct (_is_valid_mention mention); simpl; eauto.
Qed.

(** Every string of one of the three documented forms is accepted as the
    [mentions] argument, given a token. *)
Lemma init_accepts_forms (pf : platform) (ch s tok : string) :
  mention_form s = true ->
  __init__ pf ch (Some (a_str s)) (Some tok) =
    Returns (Notify ch [s] tok None None None None).
Proof.
  intros H. unfold __init__. cbn [mentions_list check_mentions].
  now rewrite (mention_form_valid s H).
Qed.

(** C10 (amended). Channel: the constructor takes the destination channel
    as it is given and does not check it; whenever the mentions are valid
    and a token is given or found in the environment, construction succeeds
    for every channel string, the empty one included, and stores it
    unchanged. *)
Theorem init_accepts_any_channel (pf : platform) (ch : string)
    (ms : option mentions_arg) (tok : option string) :
  Forall (fun mention => _is_valid_mention mention = true) (mentions_list ms) ->
  is_Some tok \/ is_Some (environ pf !! "SLACK_API_TOKEN") ->
  exists n, __init__ pf ch ms tok = Returns n /\ channel n = ch.
Proof.
  intros Hm Ht. unfold __init__.
  rewrite (check_mentions_valid _ Hm).
  destruct tok as [t|].
  - eexists. split; reflexivity.
  - destruct Ht as [[t Ht] | [t Ht]]; [discriminate |].
    rewrite Ht. eexists. split; reflexivity.
Qed.

(* ================================================================= *)
(** * The object between calls *)

Section between_calls.
Context {A R : Type}.
Variable pf : platform.

(** A call that returns leaves [self.error] as it found it. *)
Lemma wrapper_return_keeps_error (f : callable A R) (a : A)
    (self : notify) (w : world) (res : R) :
  call f a = Returns res ->
  error (fst (snd (wrapper pf f a (self, w)))) = error self.
Proof.
  intros Hf. rewrite wrapper_eq, Hf.
  destruct (_send_at_send pf self w (error self)) as (m & _ & ->).
  destruct (chat_postMessage pf _ _ _) as [r | e];
    [| destruct (isinstance e "SlackApiError")]; reflexivity.
Qed.

(** No call changes [self.func_name]: only a decoration does. *)
Lemma wrapper_keeps_func_name (f : callable A R) (a : A)
    (self : notify) (w : world) :
  func_name (fst (snd (wrapper pf f a (self, w)))) = func_name self.
Proof.
  rewrite wrapper_eq.
  destruct (call f a) as [res | e0];
    [| destruct (isinstance e0 "Exception"); [| reflexivity]].
  - destruct (_send_at_send pf self w (error self)) as (m & _ & ->).
    destruct (chat_postMessage pf _ _ _) as [r | e];
      [| destruct (isinstance e "SlackApiError")]; reflexivity.
  - destruct (_send_at_send pf self w (Some e0)) as (m & _ & ->).
    destruct (chat_postMessage pf _ _ _) as [r | e];
      [| destruct (isinstance e "SlackApiError")]; reflexivity.
Qed.

(** A decoration stores the name of the function it is given, whatever
    name was stored before. *)
Lemma __call___func_name (f : callable A R) (s : state) :
  func_name (fst (snd (__call__ pf f s))) = Some (__name__ f).
Proof. reflexivity. Qed.

End between_calls.

(* ================================================================= *)
(** * The rendered duration *)

Lemma length_append (s t : string) :
  String.length (s ++ t) = (String.length s + String.length t)%nat.
Proof. induction s as [|c s IH]; simpl; [reflexivity | now rewrite IH]. Qed.

Lemma substring_0_append (a t : string) (n : nat) :
  substring 0 (String.length a + n) (a ++ t) = a ++ substring 0 n t.
Proof. induction a as [|c a IH]; simpl; [reflexivity | now rewrite IH]. Qed.

Lemma substring_0_0 (t : string) : substring 0 0 t = "".
Proof. destruct t; reflexivity. Qed.

(** Dropping three characters from a string that ends in a part of at
    least three characters drops them from that part. *)
Lemma drop_last3_append (a t : string) :
  (3 <= String.length t)%nat ->
  drop_last3 (a ++ t) = a ++ drop_last3 t.
Proof.
  intros H. unfold drop_last3. rewrite length_append.
  replace (String.length a + String.length t - 3)%nat
    with (String.length a + (String.length t - 3))%nat by lia.
  apply substring_0_append.
Qed.

(** Dropping three characters from a string that ends in a part of
    exactly three characters drops that part. *)
Lemma drop_last3_exact (a t : string) :
  String.length t = 3%nat -> drop_last3 (a ++ t) = a.
Proof.
  intros H. rewrite drop_last3_append by lia.
  unfold drop_last3. rewrite H. cbn [Nat.sub].
  now rewrite substring_0_0, append_nil_r.
Qed.

Lemma length_string_of_list_ascii (l : list ascii) :
  String.length (string_of_list_ascii l) = List.length l.
Proof. induction l as [|c l IH]; simpl; [reflexivity | now rewrite IH]. Qed.

Lemma length_zfill (w : nat) (s : string) :
  String.length (zfill w s) = Nat.max w (String.length s).
Proof.
  unfold zfill.
  rewrite length_append, length_string_of_list_ascii, repeat_length. lia.
Qed.

(** ["%06d"] of a number that is not negative has six characters or more. *)
Lemma length_fmt_06d (x : Z) : (0 <= x)%Z -> (6 <= String.length (fmt_0d 6 x))%nat.
Proof.
  intros H. unfold fmt_0d.
  destruct (Z.ltb_spec x 0) as [Hneg | _]; [lia |].
  rewrite length_zfill. lia.
Qed.

(** ["%02d"] of a number of minutes or seconds has two characters. *)
Lemma length_fmt_02d (x : Z) :
  (0 <= x < 60)%Z -> String.length (fmt_0d 2 x) = 2%nat.
Proof.
  intros H. rewrite <- (Z2Nat.id x) by lia.
  assert (Hn : (Z.to_nat x < 60)%nat) by lia.
  generalize dependent (Z.to_nat x). clear x H. intros n Hn.
  do 60 (destruct n as [|n]; [reflexivity |]). lia.
Qed.

(** With microseconds, the rendered duration is the whole part of
    [str(dt)], the point, and the six-digit fraction without its last three
    characters: the whole seconds are kept. *)
Lemma duration_with_microseconds (dt : timedelta) :
  (0 < microseconds dt)%Z ->
  drop_last3 (timedelta_str dt) =
    timedelta_hms dt ++ "." ++ drop_last3 (fmt_0d 6 (microseconds dt)).
Proof.
  intros H. unfold timedelta_str.
  destruct (Z.eqb_spec (microseconds dt) 0) as [E | _]; [lia |].
  change (timedelta_hms dt ++ "." ++ fmt_0d 6 (microseconds dt))
    with (timedelta_hms dt ++ ("." ++ fmt_0d 6 (microseconds dt))).
  rewrite <- append_assoc.
  rewrite drop_last3_append
    by (pose proof (length_fmt_06d (microseconds dt)); lia).
  apply append_assoc.
Qed.

(** Without microseconds, and within a day, the rendered duration is
    [str(dt)] without its seconds: hours and minutes only. *)
Lemma duration_without_microseconds (dt : timedelta) :
  days dt = 0%Z ->
  microseconds dt = 0%Z ->
  timedelta_str dt =
    fmt_d (seconds dt / 60 / 60) ++ ":" ++ fmt_0d 2 (seconds dt / 60 mod 60)
    ++ ":" ++ fmt_0d 2 (seconds dt mod 60) /\
  drop_last3 (timedelta_str dt) =
    fmt_d (seconds dt / 60 / 60) ++ ":" ++ fmt_0d 2 (seconds dt / 60 mod 60).
Proof.
  intros Hd Hu. unfold timedelta_str, timedelta_hms. rewrite Hd, Hu.
  cbn [Z.eqb]. split; [reflexivity |].
  set (h := fmt_d (seconds dt / 60 / 60)).
  set (m := fmt_0d 2 (seconds dt / 60 mod 60)).
  set (t := fmt_0d 2 (seconds dt mod 60)).
  replace (h ++ ":" ++ m ++ ":" ++ t) with ((h ++ ":" ++ m) ++ (":" ++ t))
    by now rewrite !append_assoc.
  apply drop_last3_exact. simpl.
  unfold t. rewrite length_fmt_02d; [reflexivity |].
  apply Z.mod_pos_bound. lia.
Qed.

(** A difference of clock readings of a whole number of seconds, less than
    a day, is rendered without its seconds. *)
Lemma whole_seconds_rendered (us : Z) :
  (0 <= us < 86400000000)%Z ->
  (us mod 1000000 = 0)%Z ->
  drop_last3 (timedelta_str (timedelta_of us)) =
    fmt_d (us / 1000000 / 60 / 60) ++ ":"
    ++ fmt_0d 2 (us / 1000000 / 60 mod 60).
Proof.
  intros Hr Hm.
  destruct (duration_without_microseconds (timedelta_of us)) as [_ ->].
  - unfold timedelta_of. cbn [days]. apply Z.div_small. lia.
  - exact Hm.
  - unfold timedelta_of. cbn [seconds].
    now rewrite (Z.mod_small us 86400000000) by lia.
Qed.

(* ================================================================= *)
(** * What a returning call reports *)

(** When the wrapped function returns, the message handed to the client
    is built from what the object holds at that moment: the status phrase
    from [self.error], the function name from [self.func_name]. *)
Lemma wrapper_return_message {A R} (pf : platform) (f : callable A R) (a : A)
    (self : notify) (w : world) (res : R) :
  call f a = Returns res ->
  exists m,
    posted (snd (snd (wrapper pf f a (self, w)))) = List.app (posted w) [m] /\
    m_text m =
      join " " (map render_mention (mentions self))
      ++ " *" ++ status_phrase (error self) ++ "* (at function `"
      ++ fmt_name (func_name self) ++ "`)".
Proof.
  intros Hf. rewrite wrapper_eq, Hf.
  destruct (_send_at_send pf self w (error self)) as (m & Hm & ->).
  destruct (at_send_times pf self w (error self)) as [H0 H1].
  destruct (_create_message_eq pf _ (snd (at_send pf self w (error self)))
              _ _ H0 H1) as (m' & Hm' & _ & Ht & _).
  assert (m' = m) as ->
    by (unfold at_send in Hm, Hm'; cbn [fst snd] in Hm, Hm'; congruence).
  exists m. split; [| exact Ht].
  destruct (chat_postMessage pf _ _ _) as [r | e];
    [| destruct (isinstance e "SlackApiError")]; reflexivity.
Qed.

(* ================================================================= *)
(** * Runs on sample inputs *)

Import Sample.

(** C2. Mention validation, at mentions that only begin with an accepted
    form: [re.match] accepts ['channelX'] and ['U123abc'], which are none
    of the three forms, and the constructor succeeds on them. *)
Theorem prefix_mentions_accepted :
  mention_form "channelX" = false /\
  mention_form "U123abc" = false /\
  _is_valid_mention "channelX" = true /\
  _is_valid_mention "U123abc" = true /\
  __init__ pf_ok "#ops" (Some (a_str "channelX")) (Some "xoxb-1") =
    Returns (Notify "#ops" ["channelX"] "xoxb-1" None None None None) /\
  __init__ pf_ok "#ops" (Some (a_iterable ["here"; "U123abc"])) (Some "xoxb-1") =
    Returns (Notify "#ops" ["here"; "U123abc"] "xoxb-1" None None None None).
Proof. repeat split; vm_compute; reflexivity. Qed.

(** C6. Error state after a success: a call that raised, then a call that
    returns 42 through the same object; the second call returns 42, the
    stored error is still the first call's, and the second message is a
    failure message with an error section. *)
Theorem stale_error_reported_on_success :
  let r := fail_then_succeed pf_ok (plain, world0) in
  fst r = Returns 42%Z /\
  error (fst (snd r)) = Some (ValueError "bad input") /\
  map m_text (posted (snd (snd r))) =
    [" *Execution failed!* (at function `job`)";
     " *Execution failed!* (at function `job`)"] /\
  map (fun m => map block_kind (message_blocks m)) (posted (snd (snd r))) =
    [[Some CommandSection; Some DurationSection; Some ErrorSection;
      Some DividerSection; Some FooterSection];
     [Some CommandSection; Some DurationSection; Some ErrorSection;
      Some DividerSection; Some FooterSection]].
Proof. repeat split; vm_compute; reflexivity. Qed.

(** C7. Duration rendering, at a duration of a whole number of seconds:
    [str(dt)] has no fractional part then, and dropping its last three
    characters removes the seconds; 5 s is rendered as [0:00], and so is a
    duration that rounds to 0 microseconds, while 5.123456 s is rendered as
    [0:00:05.123]. *)
Theorem whole_seconds_dropped :
  timedelta_str (timedelta_of 5000000) = "0:00:05" /\
  drop_last3 (timedelta_str (timedelta_of 5000000)) = "0:00" /\
  drop_last3 (timedelta_str (timedelta_of 0)) = "0:00" /\
  drop_last3 (timedelta_str (timedelta_of 5123456)) = "0:00:05.123" /\
  map message_blocks
      (posted (snd (snd (decorate_and_call pf_5s answer tt (plain, world0))))) =
    [[section "*Command*```python3 train.py --lr 0.1```";
      section ("*Time elapsed*" ++ LF ++ "0:00");
      divider;
      context ["Sent from *notify.py* at gpu01"]]].
Proof. repeat split; vm_compute; reflexivity. Qed.

(** C9. Decoration and the function name: the callable produced for
    [train] names [train] in its message when nothing else has been
    decorated, and names [evaluate] once the same object has decorated
    [evaluate]; it still runs [train]. *)
Theorem later_decoration_renames_report :
  let alone := train_alone pf_ok (plain, world0) in
  let both := train_after_evaluate_decorated pf_ok (plain, world0) in
  fst alone = Returns 1%Z /\
  fst both = Returns 1%Z /\
  map m_text (posted (snd (snd alone))) =
    [" *Execution succeeded!* (at function `train`)"] /\
  map m_text (posted (snd (snd both))) =
    [" *Execution succeeded!* (at function `evaluate`)"].
Proof. repeat split; vm_compute; reflexivity. Qed.


(** C3, as stated, fails: [f] raises [KeyboardInterrupt] and no delivery
    is attempted. *)
Lemma interrupt_not_reported :
  call interrupted tt = Raises KeyboardInterrupt /\
  fst (wrapper pf_ok interrupted tt (plain, world0)) = Raises KeyboardInterrupt /\
  attempts (snd (wrapper pf_ok interrupted tt (plain, world0))) = 0%nat.
Proof. repeat split; vm_compute; reflexivity. Qed.

(** C5, as stated, fails: [f] raises [ValueError] and the client raises
    [ConnectionError]; the decorated call raises [ConnectionError] in the
    place of the [ValueError], and nothing is logged at error severity. *)
Lemma wrapped_error_masked :
  call bad_input tt = Raises (ValueError "bad input") /\
  fst (wrapper pf_unreachable bad_input tt (plain, world0)) =
    Raises (ConnectionError "Network is unreachable") /\
  logged (snd (snd (wrapper pf_unreachable bad_input tt (plain, world0)))) =
    [(DEBUG, "Sending a notification to Slack.")].
Proof. repeat split; vm_compute; reflexivity. Qed.

(** C8, as stated, fails: with no mention the summary begins with the
    separator space. *)
Lemma summary_leading_space :
  mentions (timed plain) = [] /\
  exists m,
    fst (_create_message pf_ok (timed plain, world0)) = Returns m /\
    m_text m = " *Execution succeeded!* (at function `main`)" /\
    m_text m <> summary_as_specified [] None "main".
Proof.
  split; [reflexivity |]. eexists. split; [vm_compute; reflexivity |].
  split; [reflexivity | discriminate].
Qed.

(** C10, as stated, fails: the constructor accepts the empty channel. *)
Lemma empty_channel_accepted :
  __init__ pf_ok "" None (Some "xoxb-1") =
    Returns (Notify "" [] "xoxb-1" None None None None).
Proof. reflexivity. Qed.

(* ----------------------------------------------------------------- *)
(** ** The theorems at sample inputs *)


Lemma wrapper_sends_once_witness :
  (forall e, call bad_input tt = Raises e -> isinstance e "Exception" = true) /\
  attempts (snd (wrapper pf_ok bad_input tt (plain, world0))) = 1%nat.
Proof.
  assert (H : forall e, call bad_input tt = Raises e ->
                        isinstance e "Exception" = true).
  { intros e E. injection E as <-. reflexivity. }
  split; [exact H |].
  exact (wrapper_sends_once pf_ok bad_input tt (plain, world0) H).
Defined.

Lemma delivery_failure_isolated_witness :
  fst (wrapper pf_revoked bad_input tt (plain, world0)) =
    Raises (ValueError "bad input") /\
  logged (snd (snd (wrapper pf_revoked bad_input tt (plain, world0)))) =
    [(DEBUG, "Sending a notification to Slack.");
     (ERROR, "Could not send a notification: token_revoked")].
Proof.
  refine (proj2 (delivery_failure_isolated pf_revoked bad_input tt
                   plain world0 (SlackApiError "token_revoked") _
                   eq_refl eq_refl eq_refl _)).
  intros e E. injection E as <-. reflexivity.
Defined.

Lemma message_sections_witness :
  exists m,
    fst (_create_message pf_ok (timed plain, world0)) = Returns m /\
    map block_kind (message_blocks m) =
      [Some CommandSection; Some DurationSection;
       Some DividerSection; Some FooterSection].
Proof.
  exact (message_sections pf_ok (timed plain) world0
           (clock_1500ms 0) (clock_1500ms 1) eq_refl eq_refl).
Defined.

Lemma summary_text_witness :
  exists m,
    fst (_create_message pf_ok (timed loud, world0)) = Returns m /\
    m_text m =
      "<!channel> <@U024BE7LH> *Execution succeeded!* (at function `main`)".
Proof.
  destruct (summary_text pf_ok (timed loud) world0
              (clock_1500ms 0) (clock_1500ms 1) eq_refl eq_refl)
    as (m & Hm & Ht & _).
  exists m. split; [exact Hm | exact Ht].
Defined.

Lemma init_accepts_any_channel_witness :
  exists n, __init__ pf_ok "" (Some (a_str "here")) None = Returns n /\
            channel n = "".
Proof.
  apply (init_accepts_any_channel pf_ok "" (Some (a_str "here")) None).
  - repeat constructor.
  - right. eexists. reflexivity.
Defined.


(* ================================================================= *)
(** * Further properties of the code *)

(* ----------------------------------------------------------------- *)
(** ** Decimal writing *)

Module decimal_facts.
Import Decimal DecimalFacts DecimalPos.

Lemma digit_cases (k : N) (P : N -> Prop) :
  (k < 10)%N ->
  P 0%N -> P 1%N -> P 2%N -> P 3%N -> P 4%N -> P 5%N -> P 6%N -> P 7%N ->
  P 8%N -> P 9%N -> P k.
Proof.
  intros H. rewrite <- (N2Nat.id k).
  assert (Hn : (N.to_nat k < 10)%nat) by lia.
  generalize dependent (N.to_nat k). clear. intros n Hn.
  do 10 (destruct n as [|n]; [simpl; tauto |]). lia.
Qed.

Lemma of_lu_digit_of k d :
  (k < 10)%N -> Unsigned.of_lu (digit_of k d) = (k + 10 * Unsigned.of_lu d)%N.
Proof. intros H. apply (digit_cases k); auto. Qed.

Lemma of_lu_lu w n : Unsigned.of_lu (digits_lu w n) = (n mod 10 ^ N.of_nat w)%N.
Proof.
  revert n. induction w as [|w IH]; intros n.
  - simpl. now rewrite N.mod_1_r.
  - cbn [digits_lu]. rewrite of_lu_digit_of by (apply N.mod_lt; lia).
    rewrite IH, Nat2N.inj_succ, N.pow_succ_r'.
    now rewrite N.Div0.mod_mul_r.
Qed.

Ltac split_digit k :=
  unfold digit_of; destruct k;
  repeat match goal with
         | |- context [match ?p with _ => _ end] => destruct p
         end;
  reflexivity.

Lemma string_of_revapp d d' :
  NilEmpty.string_of_uint (revapp d d') =
  NilEmpty.string_of_uint (rev d) ++ NilEmpty.string_of_uint d'.
Proof.
  revert d'. unfold rev.
  induction d as [|d IH|d IH|d IH|d IH|d IH|d IH|d IH|d IH|d IH|d IH];
    intros d'; cbn [revapp]; [reflexivity | ..];
    rewrite (IH (_ d')), (IH (_ Nil)), append_assoc; reflexivity.
Qed.

Lemma rev_digit_of k d : rev (digit_of k d) = revapp d (digit_of k Nil).
Proof.
  split_digit k.
Qed.

Lemma string_of_rev_lu w n :
  NilEmpty.string_of_uint (rev (digits_lu (S w) n)) =
  NilEmpty.string_of_uint (rev (digits_lu w (n / 10))) ++ digit_char (n mod 10).
Proof. cbn [digits_lu]. rewrite rev_digit_of. apply string_of_revapp. Qed.

Lemma length_digit_char k : String.length (digit_char k) = 1%nat.
Proof.
  unfold digit_char. split_digit k.
Qed.

Lemma length_string_of_uint d :
  String.length (NilEmpty.string_of_uint d) = nb_digits d.
Proof. induction d; simpl; congruence. Qed.

Lemma nb_digits_digit_of k d : nb_digits (digit_of k d) = S (nb_digits d).
Proof.
  split_digit k.
Qed.

Lemma nb_digits_lu w n : nb_digits (digits_lu w n) = w.
Proof.
  revert n. induction w as [|w IH]; intros n; [reflexivity |].
  cbn [digits_lu]. now rewrite nb_digits_digit_of, IH.
Qed.

Lemma zfill_short (w : nat) (s : string) :
  (String.length s <= w)%nat -> zfill (S w) s = "0" ++ zfill w s.
Proof.
  intros H. unfold zfill.
  replace (S w - String.length s)%nat with (S (w - String.length s)) by lia.
  reflexivity.
Qed.

Lemma zfill_long (w : nat) (s : string) :
  (w <= String.length s)%nat -> zfill w s = s.
Proof.
  intros H. unfold zfill.
  replace (w - String.length s)%nat with 0%nat by lia. reflexivity.
Qed.

Lemma nilzero_unorm u :
  NilZero.string_of_uint (unorm u) = NilEmpty.string_of_uint (unorm u).
Proof.
  unfold NilZero.string_of_uint.
  destruct (unorm u) eqn:E; try reflexivity. now apply unorm_nonnil in E.
Qed.

(** Filling the canonical writing of a number with zeros up to the number
    of digits of a writing with leading zeros gives that writing. *)
Lemma zfill_unorm u :
  u <> Nil ->
  zfill (nb_digits u) (NilZero.string_of_uint (unorm u)) =
  NilEmpty.string_of_uint u.
Proof.
  rewrite nilzero_unorm.
  induction u as [|u IH|u _|u _|u _|u _|u _|u _|u _|u _|u _]; intros Hn;
    [congruence | |
     cbn [unorm nzhead]; apply zfill_long; rewrite length_string_of_uint; lia ..].
  rewrite unorm_D0. cbn [nb_digits].
  destruct (Nat.eq_dec (nb_digits u) 0) as [En | En].
  - apply nb_digits_0 in En. subst u. reflexivity.
  - assert (Hu : u <> Nil) by now apply nb_digits_n0.
    rewrite zfill_short.
    + rewrite IH by exact Hu. reflexivity.
    + rewrite length_string_of_uint. now apply nb_digits_unorm.
Qed.

(** ["%0wd"] of a number below [10^w] writes its [w] digits. *)
Lemma fmt_0d_digits (w : nat) (x : Z) :
  (0 < w)%nat -> (0 <= x < 10 ^ Z.of_nat w)%Z ->
  fmt_0d w x = NilEmpty.string_of_uint (rev (digits_lu w (Z.to_N x))).
Proof.
  intros Hw Hx. unfold fmt_0d, fmt_d.
  destruct (Z.ltb_spec x 0) as [Hneg | _]; [lia |].
  assert (Hint : Z.to_int x = Pos (N.to_uint (Z.to_N x))).
  { destruct x as [|p|p]; [reflexivity | reflexivity | lia]. }
  rewrite Hint. cbn [NilZero.string_of_int].
  assert (Hval : N.of_uint (rev (digits_lu w (Z.to_N x))) = Z.to_N x).
  { unfold N.of_uint. rewrite Unsigned.of_lu_rev, of_lu_lu.
    apply N.mod_small.
    apply N2Z.inj_lt. rewrite N2Z.inj_pow, Z2N.id, nat_N_Z by lia.
    simpl. lia. }
  rewrite <- Hval at 1. rewrite DecimalN.Unsigned.to_of.
  rewrite <- (nb_digits_lu w (Z.to_N x)) at 1.
  rewrite <- nb_digits_rev.
  apply zfill_unorm.
  intros E. apply (f_equal nb_digits) in E.
  rewrite nb_digits_rev, nb_digits_lu in E. simpl in E. lia.
Qed.

(** The six-digit writing of a number of microseconds, without its last
    three characters, is the three-digit writing of the milliseconds. *)
Lemma drop_last3_fmt_06d (x : Z) :
  (0 <= x < 1000000)%Z -> drop_last3 (fmt_0d 6 x) = fmt_0d 3 (x / 1000).
Proof.
  intros Hx.
  assert (Hq : (0 <= x / 1000 < 1000)%Z).
  { split; [apply Z.div_pos; lia | apply Z.div_lt_upper_bound; lia]. }
  rewrite (fmt_0d_digits 6 x), (fmt_0d_digits 3 (x / 1000)) by (simpl; lia).
  rewrite !string_of_rev_lu with (w := 5%nat).
  rewrite (string_of_rev_lu 4), (string_of_rev_lu 3).
  rewrite !append_assoc.
  rewrite drop_last3_exact
    by (rewrite !length_append, !length_digit_char; reflexivity).

  f_equal.
  rewrite Z2N.inj_div by lia. rewrite !N.Div0.div_div. reflexivity.
Qed.

End decimal_facts.

(* ----------------------------------------------------------------- *)
(** ** [_is_valid_mention] and the constructor *)

Lemma prefix_append (p s : string) :
  String.prefix p s = true <-> exists q, s = p ++ q.
Proof.
  revert s. induction p as [|a p IH]; intros s; simpl.
  - split; [intros _; exists s; reflexivity | intros _; now destruct s].
  - destruct s as [|b s]; simpl.
    + split; [discriminate | intros [q Hq]; discriminate].
    + destruct (ascii_dec a b) as [-> | Hab].
      * rewrite IH. split; intros [q Hq]; exists q; congruence.
      * split; [discriminate | intros [q Hq]; congruence].
Qed.


(** X1. [_is_valid_mention] accepts a string exactly when it begins with
    [channel], with [here], or with [U] and one character of [0-9A-Z];
    the empty string and anything that begins otherwise are rejected. *)
Theorem valid_mention_prefixes (s : string) :
  _is_valid_mention s =
    String.prefix "channel" s || String.prefix "here" s ||
    match s with
    | String "U" (String c _) => upper_alnum c
    | _ => false
    end.
Proof.
  apply eq_true_iff_eq. rewrite _is_valid_mention_spec, !orb_true_iff.
  rewrite !prefix_append. split.
  - intros (p & q & -> & H). unfold mention_form in H.
    rewrite !orb_true_iff, !String.eqb_eq in H.
    destruct H as [[-> | ->] | H]; [left; left; eauto | left; right; eauto |].
    right. destruct p as [|u [|c p]]; try discriminate.
    { destruct u as [[] [] [] [] [] [] [] []]; discriminate. }
    destruct (Ascii.eqb_spec u "U") as [-> | Hu].
    + simpl. now apply andb_true_iff in H as [H _].
    + exfalso. destruct u as [[] [] [] [] [] [] [] []];
        try discriminate; now apply Hu.
  - intros [[[q ->] | [q ->]] | H].
    + exists "channel", q. split; reflexivity.
    + exists "here", q. split; reflexivity.
    + destruct s as [|u [|c s]]; try discriminate.
      { destruct u as [[] [] [] [] [] [] [] []]; discriminate. }
      destruct (Ascii.eqb_spec u "U") as [-> | Hu].
      * exists (String "U" (String c "")), s. split; [reflexivity |].
        unfold mention_form. simpl. rewrite H. reflexivity.
      * exfalso. destruct u as [[] [] [] [] [] [] [] []];
          try discriminate; now apply Hu.
Qed.

Lemma check_mentions_first_invalid (l1 : list string) (m : string)
    (l2 : list string) :
  Forall (fun mention => _is_valid_mention mention = true) l1 ->
  _is_valid_mention m = false ->
  check_mentions (l1 ++ m :: l2)%list =
    Raises (ValueError
              ("Mention '" ++ m ++ "' is not valid. Only 'channel', "
               ++ "'here', or user id ('U...') is acceptable.")).
Proof.
  intros H1 Hm. induction H1 as [|x l1 Hx _ IH]; simpl.
  - now rewrite Hm.
  - now rewrite Hx.
Qed.

Lemma check_mentions_returns (l : list string) :
  check_mentions l = Returns tt <->
  Forall (fun mention => _is_valid_mention mention = true) l.
Proof.
  split; [| apply check_mentions_valid].
  induction l as [|x l IH]; simpl; intros H; [constructor |].
  destruct (_is_valid_mention x) eqn:Hx; simpl in H; [| discriminate].
  constructor; auto.
Qed.


(** X2. The constructor stops at the first mention that is not valid: it
    raises [ValueError] with the message naming that mention, whatever
    follows it in the list and whatever the token and the environment are. *)
Theorem init_first_invalid_mention (pf : platform) (ch : string)
    (l1 : list string) (m : string) (l2 : list string) (tok : option string) :
  Forall (fun mention => _is_valid_mention mention = true) l1 ->
  _is_valid_mention m = false ->
  __init__ pf ch (Some (a_iterable (l1 ++ m :: l2)%list)) tok =
    Raises (ValueError
              ("Mention '" ++ m ++ "' is not valid. Only 'channel', "
               ++ "'here', or user id ('U...') is acceptable.")).
Proof.
  intros H1 Hm. unfold __init__. cbn [mentions_list].
  now rewrite (check_mentions_first_invalid l1 m l2 H1 Hm).
Qed.

(** X3. The constructor succeeds exactly when every mention is valid and a
    token is given or [SLACK_API_TOKEN] is in the environment. *)
Theorem init_succeeds_iff (pf : platform) (ch : string)
    (ms : option mentions_arg) (tok : option string) :
  (exists n, __init__ pf ch ms tok = Returns n) <->
  Forall (fun mention => _is_valid_mention mention = true) (mentions_list ms)
  /\ (is_Some tok \/ is_Some (environ pf !! "SLACK_API_TOKEN")).
Proof.
  unfold __init__. split.
  - intros [n H].
    destruct (check_mentions (mentions_list ms)) as [[]|e] eqn:Hc;
      [| discriminate].
    split; [now apply check_mentions_returns |].
    destruct tok as [t|]; [left; eauto |].
    destruct (environ pf !! "SLACK_API_TOKEN") as [t|]; [right; eauto |].
    discriminate.
  - intros [Hm Ht]. rewrite (check_mentions_valid _ Hm).
    destruct tok as [t|]; [eauto |].
    destruct Ht as [[t Ht] | [t Ht]]; [discriminate |].
    rewrite Ht. eauto.
Qed.

(** X4. With valid mentions, no token given and no [SLACK_API_TOKEN] in the
    environment, the constructor raises [KeyError('SLACK_API_TOKEN')]. *)
Theorem init_missing_token (pf : platform) (ch : string)
    (ms : option mentions_arg) :
  Forall (fun mention => _is_valid_mention mention = true) (mentions_list ms) ->
  environ pf !! "SLACK_API_TOKEN" = None ->
  __init__ pf ch ms None = Raises (KeyError "SLACK_API_TOKEN") /\
  exc_str (KeyError "SLACK_API_TOKEN") = "'SLACK_API_TOKEN'".
Proof.
  intros Hm He. unfold __init__.
  rewrite (check_mentions_valid _ Hm), He. split; reflexivity.
Qed.

(** X5. The object the constructor returns: the channel and the list of
    mentions as given, every stored mention valid, the token given if there
    is one (the environment is then not consulted) and the one of the
    environment otherwise, no error, no times and no function name. *)
Theorem init_object (pf : platform) (ch : string)
    (ms : option mentions_arg) (tok : option string) (n : notify) :
  __init__ pf ch ms tok = Returns n ->
  channel n = ch /\
  mentions n = mentions_list ms /\
  Forall (fun mention => _is_valid_mention mention = true) (mentions n) /\
  Some (token n) = match tok with
                   | Some t => Some t
                   | None => environ pf !! "SLACK_API_TOKEN"
                   end /\
  error n = None /\ t_start n = None /\ t_end n = None /\
  func_name n = None.
Proof.
  unfold __init__. intros H.
  destruct (check_mentions (mentions_list ms)) as [[]|e] eqn:Hc;
    [| discriminate].
  apply check_mentions_returns in Hc.
  destruct tok as [t|].
  - injection H as <-. repeat split; assumption.
  - destruct (environ pf !! "SLACK_API_TOKEN") as [t|]; [| discriminate].
    injection H as <-. repeat split; assumption.
Qed.

(* ----------------------------------------------------------------- *)
(** ** [_create_message] and [_send] *)

Section more_methods.
Variable pf : platform.

Lemma _create_message_attachments (self : notify) (w : world) (t0 t1 : Z) :
  t_start self = Some t0 ->
  t_end self = Some t1 ->
  exists m,
    _create_message pf (self, w) = (Returns m, (self, w)) /\
    m_channel m = channel self /\
    m_attachments m =
      [Attachment "Details about the execution results."
                  (colour_of (error self)) (message_blocks m)].
Proof.
  intros H0 H1.
  unfold _create_message, bind, get_self, eval, ret. cbn [fst snd].
  rewrite H0, H1. cbn [py_sub].
  destruct (error self) as [e|]; eexists; repeat split.
Qed.


(** X6. With both times recorded, [_create_message] changes neither the
    object nor the world; the message goes to the channel of the object and
    carries exactly one attachment, with the fixed fallback text, green
    without a stored error and red with one. *)
Theorem message_envelope (self : notify) (w : world) (t0 t1 : Z) :
  t_start self = Some t0 ->
  t_end self = Some t1 ->
  exists m,
    _create_message pf (self, w) = (Returns m, (self, w)) /\
    m_channel m = channel self /\
    m_attachments m =
      [Attachment "Details about the execution results."
                  (colour_of (error self)) (message_blocks m)].
Proof. apply _create_message_attachments. Qed.

(** X7. The status of [_send], with both times recorded: 0 exactly when
    the client returns a response, 1 exactly when the client raises an
    instance of [SlackApiError], and [_send] raises exactly what the
    client raises outside [SlackApiError]; in every case the object is
    unchanged, the message built is handed to the client once and no clock
    reading is taken. *)
Theorem send_status (self : notify) (w : world) (t0 t1 : Z) :
  t_start self = Some t0 ->
  t_end self = Some t1 ->
  exists m,
    _create_message pf (self, w) = (Returns m, (self, w)) /\
    let reply := chat_postMessage pf (List.length (posted w)) (token self) m in
    let r := _send pf (self, w) in
    (fst r = Returns 0%Z <-> exists response, reply = Returns response) /\
    (fst r = Returns 1%Z <->
       exists e, reply = Raises e /\ isinstance e "SlackApiError" = true) /\
    (forall e, fst r = Raises e <->
       reply = Raises e /\ isinstance e "SlackApiError" = false) /\
    fst (snd r) = self /\
    posted (snd (snd r)) = List.app (posted w) [m] /\
    ticks (snd (snd r)) = ticks w.
Proof.
  intros H0 H1.
  destruct (_send_eq pf self w t0 t1 H0 H1) as (m & Hm & Hs).
  exists m. split; [exact Hm |]. cbv zeta. rewrite Hs.
  destruct (chat_postMessage pf _ _ _) as [response | e] eqn:E.
  - repeat split; try reflexivity; try discriminate; eauto.
    + intros (e & He & _). discriminate.
    + intros [He _]. discriminate.
  - destruct (isinstance e "SlackApiError") eqn:Hi;
      repeat split; try reflexivity; try discriminate; eauto.
    + intros [r Hr]. discriminate.
    + intros [He Hf]. injection He as <-. congruence.
    + intros [r Hr]. discriminate.
    + intros (e' & He & Ht). injection He as <-. congruence.
    + cbn [fst] in H. now injection H as <-.
    + cbn [fst] in H. now injection H as <-.
    + intros [He _]. cbn [fst]. congruence.
Qed.


(** X8. [_send] on an object without a recorded start or end time, as the
    constructor leaves it, raises [TypeError] before the client is
    contacted: nothing is posted and nothing is logged. *)
Theorem send_without_times (self : notify) (w : world) :
  t_start self = None \/ t_end self = None ->
  exists e,
    _send pf (self, w) = (Raises e, (self, w)) /\
    exc_class e = "TypeError".
Proof.
  intros H.
  unfold _send, _create_message, bind, get_self, eval, ret. cbn [fst snd].
  destruct H as [H | H]; rewrite H.
  - destruct (t_end self); eexists; split; reflexivity.
  - destruct (t_start self); eexists; split; reflexivity.
Qed.


End more_methods.

(* ----------------------------------------------------------------- *)
(** ** The wrapper *)

Section more_wrapper.
Context {A R : Type}.
Variable pf : platform.

(** The state in which the wrapper leaves [_send], by what the client
    did. *)
Lemma wrapper_state (f : callable A R) (a : A) (self : notify) (w : world) :
  (exists e, call f a = Raises e /\ isinstance e "Exception" = false /\
             wrapper pf f a (self, w) =
               (Raises e,
                (with_t_start (Some (clock pf (ticks w))) self,
                 World (S (ticks w)) (posted w) (logged w)))) \/
  (exists err m rs,
      (forall e, call f a = Raises e -> isinstance e "Exception" = true) /\
      err = match call f a with
            | Returns _ => error self
            | Raises e => Some e
            end /\
      _create_message pf (at_send pf self w err) =
        (Returns m, at_send pf self w err) /\
      snd (wrapper pf f a (self, w)) =
        (fst (at_send pf self w err),
         after_post (snd (at_send pf self w err)) m rs)).
Proof.
  rewrite wrapper_eq.
  destruct (call f a) as [res | e] eqn:Hf.
  - right. destruct (_send_at_send pf self w (error self)) as (m & Hm & ->).
    exists (error self), m.
    destruct (chat_postMessage pf _ _ _) as [r | e'];
      [| destruct (isinstance e' "SlackApiError")];
      eexists; (split; [discriminate |]); split; try reflexivity;
      split; try exact Hm; reflexivity.
  - destruct (isinstance e "Exception") eqn:He.
    + right. destruct (_send_at_send pf self w (Some e)) as (m & Hm & ->).
      exists (Some e), m.
      destruct (chat_postMessage pf _ _ _) as [r | e'];
        [| destruct (isinstance e' "SlackApiError")];
        eexists; (split; [intros e0 E0; congruence |]); split;
        try reflexivity; split; try exact Hm; reflexivity.
    + left. exists e. repeat split; assumption.
Qed.


(** X11. When the wrapped function raises outside [Exception], the wrapper
    re-raises after one clock reading, with the start time recorded and
    nothing else changed: no end time, the stored error as before, nothing
    posted, nothing logged. *)
Theorem wrapper_base_exception (f : callable A R) (a : A) (self : notify)
    (w : world) (e : exception) :
  call f a = Raises e ->
  isinstance e "Exception" = false ->
  wrapper pf f a (self, w) =
    (Raises e,
     (with_t_start (Some (clock pf (ticks w))) self,
      World (S (ticks w)) (posted w) (logged w))).
Proof. intros Hf He. now rewrite wrapper_eq, Hf, He. Qed.


(** X13. When the wrapped function raises an instance of [Exception], the
    exception is stored in the object, replacing any earlier one, and the
    message posted is a failure message: the status phrase is
    [Execution failed!], the attachment is red, and the third block shows
    the class name and the message of this exception. *)
Theorem wrapper_failure_report (f : callable A R) (a : A) (self : notify)
    (w : world) (e : exception) :
  call f a = Raises e ->
  isinstance e "Exception" = true ->
  let s' := snd (wrapper pf f a (self, w)) in
  error (fst s') = Some e /\
  exists m,
    posted (snd s') = List.app (posted w) [m] /\
    m_text m =
      join " " (map render_mention (mentions self))
      ++ " *Execution failed!* (at function `"
      ++ fmt_name (func_name self) ++ "`)" /\
    map color (m_attachments m) = ["#cf0301"] /\
    message_blocks m !! 2%nat =
      Some (section ("*Error message*" ++ LF ++ "```" ++ exc_class e
                     ++ ": " ++ exc_str e ++ "```")).
Proof.
  intros Hf He. cbv zeta.
  destruct (wrapper_state f a self w)
    as [(e' & Hf' & He' & _) | (err & m & rs & _ & Herr & Hm & ->)].
  { congruence. }
  rewrite Hf in Herr. subst err.
  split; [reflexivity |]. exists m. split; [reflexivity |].
  destruct (at_send_times pf self w (Some e)) as [H0 H1].
  destruct (_create_message_eq pf _ (snd (at_send pf self w (Some e)))
              _ _ H0 H1) as (m1 & Hm1 & _ & Ht & Hb).
  destruct (_create_message_attachments pf _ (snd (at_send pf self w (Some e)))
              _ _ H0 H1) as (m2 & Hm2 & _ & Ha).
  assert (m1 = m) as ->
    by (unfold at_send in Hm, Hm1; cbn [fst snd] in Hm, Hm1; congruence).
  assert (m2 = m) as ->
    by (unfold at_send in Hm, Hm2; cbn [fst snd] in Hm, Hm2; congruence).
  rewrite Ht, Ha, Hb. repeat split.
Qed.


End more_wrapper.

(* ----------------------------------------------------------------- *)
(** ** The wrapper around a function that acts on the object *)

Section acting_functions.
Context {A R : Type}.
Variable pf : platform.

(** On a function that acts on neither, it is [wrapper]. *)
Lemma wrapper_st_pure (f : callable A R) (a : A) (s : state) :
  wrapper_st pf (pure_procedure f) a s = wrapper pf f a s.
Proof. reflexivity. Qed.

(** The wrapper, by what the wrapped function did. *)
Lemma wrapper_st_eq (f : procedure A R) (a : A) (s : state) :
  wrapper_st pf f a s =
    match p_call f a (entered pf s) with
    | (Returns res, s2) =>
        match _send pf (leaving pf s2 None) with
        | (Returns _, s') => (Returns res, s')
        | (Raises e', s') => (Raises e', s')
        end
    | (Raises e, s2) =>
        if isinstance e "Exception"
        then match _send pf (leaving pf s2 (Some e)) with
             | (Returns _, s') => (Raises e, s')
             | (Raises e', s') => (Raises e', s')
             end
        else (Raises e, s2)
    end.
Proof.
  unfold wrapper_st, bind at 1, time_time.
  unfold bind at 1, update_self. cbn [fst snd].
  unfold try_except_else, entered.
  destruct (p_call f a _) as [[res | e] [self2 w2]].
  - unfold bind at 1, time_time. cbn [fst snd].
    unfold bind at 1, update_self. cbn [fst snd].
    unfold bind at 1, leaving, ret. cbn [fst snd].
    now destruct (_send pf _) as [[status | e'] s'].
  - destruct (isinstance e "Exception"); [| reflexivity].
    unfold bind at 1, time_time. cbn [fst snd].
    unfold bind at 1, update_self. cbn [fst snd].
    unfold bind at 1, update_self. cbn [fst snd].
    unfold bind at 1, leaving, raise. cbn [fst snd].
    now destruct (_send pf _) as [[status | e'] s'].
Qed.

(** [_send] leaves the object and the clock alone and hands at most one
    message to the client, in any state. *)
Lemma _send_frame (self : notify) (w : world) :
  exists (ms : list message) (rs : list (level * string)),
    snd (_send pf (self, w)) =
      (self, World (ticks w) (List.app (posted w) ms) (List.app (logged w) rs))
    /\ (List.length ms <= 1)%nat.
Proof.
  destruct (t_start self) as [t0|] eqn:H0; [destruct (t_end self) as [t1|] eqn:H1 |].
  - destruct (_send_eq pf self w t0 t1 H0 H1) as (m & _ & ->).
    destruct (chat_postMessage pf _ _ _) as [r | e];
      [| destruct (isinstance e "SlackApiError")];
      eexists [m], _; split; try reflexivity; simpl; lia.
  - exists [], []. split; [| simpl; lia].
    unfold _send, _create_message, bind, get_self, eval, ret. cbn [fst snd].
    rewrite H0, H1. destruct w. cbn. now rewrite !app_nil_r.
  - exists [], []. split; [| simpl; lia].
    unfold _send, _create_message, bind, get_self, eval, ret. cbn [fst snd].
    rewrite H0. destruct w, (t_end self); cbn; now rewrite !app_nil_r.
Qed.

(** The state in which the wrapper leaves, by the outcome of the wrapped
    function and the state [s2] it left. *)
Lemma wrapper_st_state (f : procedure A R) (a : A) (s : state) :
  let o := fst (p_call f a (entered pf s)) in
  let s2 := snd (p_call f a (entered pf s)) in
  (exists e, o = Raises e /\ isinstance e "Exception" = false /\
             wrapper_st pf f a s = (Raises e, s2)) \/
  (exists raised ms rs,
      (forall e, o = Raises e -> isinstance e "Exception" = true) /\
      raised = match o with
               | Returns _ => None
               | Raises e => Some e
               end /\
      snd (wrapper_st pf f a s) =
        (fst (leaving pf s2 raised),
         World (S (ticks (snd s2)))
               (List.app (posted (snd s2)) ms)
               (List.app (logged (snd s2)) rs)) /\
      snd (_send pf (leaving pf s2 raised)) = snd (wrapper_st pf f a s) /\
      (List.length ms <= 1)%nat).
Proof.
  cbv zeta. rewrite wrapper_st_eq.
  destruct (p_call f a (entered pf s)) as [[res | e] s2] eqn:Hf; cbn [fst snd].
  - right.
    destruct (_send_frame (fst (leaving pf s2 None)) (snd (leaving pf s2 None)))
      as (ms & rs & Hs & Hl).
    exists None, ms, rs.
    replace (fst (leaving pf s2 None), snd (leaving pf s2 None))
      with (leaving pf s2 None) in Hs by reflexivity.
    destruct (_send pf (leaving pf s2 None)) as [[status | e'] s'];
      cbn [snd] in Hs |- *; subst s';
      (split; [discriminate |]); repeat split; assumption.
  - destruct (isinstance e "Exception") eqn:He.
    + right.
      destruct (_send_frame (fst (leaving pf s2 (Some e)))
                  (snd (leaving pf s2 (Some e)))) as (ms & rs & Hs & Hl).
      exists (Some e), ms, rs.
      replace (fst (leaving pf s2 (Some e)), snd (leaving pf s2 (Some e)))
        with (leaving pf s2 (Some e)) in Hs by reflexivity.
      destruct (_send pf (leaving pf s2 (Some e))) as [[status | e'] s'];
        cbn [snd] in Hs |- *; subst s';
        (split; [intros e0 E0; congruence |]); repeat split; assumption.
    + left. exists e. repeat split; assumption.
Qed.

(** X9. A call leaves the configuration of the object (channel, mentions,
    token, stored function name) as it was at entry, provided the wrapped
    function, which runs with the object in reach, leaves it so: none of
    the wrapper's own steps assigns any of the four. *)
Theorem wrapper_st_keeps_configuration (f : procedure A R) (a : A)
    (s : state) :
  configuration (fst (snd (p_call f a (entered pf s)))) =
    configuration (fst s) ->
  configuration (fst (snd (wrapper_st pf f a s))) = configuration (fst s).
Proof.
  intros Hf.
  destruct (wrapper_st_state f a s)
    as [(e & _ & _ & ->) | (raised & ms & rs & _ & _ & -> & _)].
  - exact Hf.
  - rewrite <- Hf. cbn [fst]. now destruct raised.
Qed.

(** X10. Whatever the wrapped function does to the object and the world
    while it runs, a re-entrant call included, the wrapper's own steps
    hand at most one message to the client: the posts after the call are
    the posts the wrapped function left, followed by at most one
    message. *)
Theorem wrapper_st_adds_at_most_one (f : procedure A R) (a : A) (s : state) :
  exists ms : list message,
    posted (snd (snd (wrapper_st pf f a s))) =
      List.app (posted (snd (snd (p_call f a (entered pf s))))) ms /\
    (List.length ms <= 1)%nat.
Proof.
  destruct (wrapper_st_state f a s)
    as [(e & _ & _ & ->) | (raised & ms & rs & _ & _ & -> & _ & Hl)].
  - exists []. cbn [snd]. rewrite app_nil_r. split; [reflexivity | simpl; lia].
  - exists ms. split; [reflexivity | exact Hl].
Qed.


(** A call of a quiet function takes two readings and posts once. *)
Lemma wrapper_st_counts (f : procedure A R) (a : A) (s : state) :
  quiet f a (entered pf s) ->
  attempts (snd (wrapper_st pf f a s)) = S (attempts s) /\
  ticks (snd (snd (wrapper_st pf f a s))) = S (S (ticks (snd s))).
Proof.
  intros (Hexc & Hself & Hposted & Hticks).
  destruct (wrapper_st_state f a s)
    as [(e & Hf & He & _) | (raised & ms & rs & _ & _ & Hs & Hsend & _)].
  { rewrite (Hexc e Hf) in He. discriminate. }
  rewrite <- Hsend. clear Hs Hsend.
  set (s2 := snd (p_call f a (entered pf s))) in *.
  assert (H0 : t_start (fst (leaving pf s2 raised))
               = Some (clock pf (ticks (snd s)))).
  { unfold leaving. cbn [fst]. destruct raised; cbn; now rewrite Hself. }
  assert (H1 : t_end (fst (leaving pf s2 raised))
               = Some (clock pf (ticks (snd s2)))).
  { unfold leaving. cbn [fst]. now destruct raised. }
  destruct (_send_eq pf _ (snd (leaving pf s2 raised)) _ _ H0 H1)
    as (m & _ & Hs).
  replace (fst (leaving pf s2 raised), snd (leaving pf s2 raised))
    with (leaving pf s2 raised) in Hs by reflexivity.
  rewrite Hs. unfold attempts.
  destruct (chat_postMessage pf _ _ _) as [r | e];
    [| destruct (isinstance e "SlackApiError")];
    cbn [fst snd after_post leaving posted ticks];
    rewrite length_app, Hposted, Hticks; cbn [List.length entered snd posted ticks];
    split; lia.
Qed.

(** X15. Calls in sequence through one decorated function which, at each
    call, returns or raises an instance of [Exception] and leaves the
    object, the posts and the clock alone: as many delivery attempts as
    calls, and two clock readings per call. *)
Theorem run_calls_st_attempts (f : procedure A R) (args : list A)
    (s : state) :
  Forall (fun a => forall s0, quiet f a s0) args ->
  attempts (run_calls_st pf f args s) = (attempts s + List.length args)%nat /\
  ticks (snd (run_calls_st pf f args s)) =
    (ticks (snd s) + 2 * List.length args)%nat.
Proof.
  intros H. revert s.
  induction H as [|a args Ha _ IH]; intros s; cbn [run_calls_st List.length].
  - split; lia.
  - destruct (IH (snd (wrapper_st pf f a s))) as [-> ->].
    destruct (wrapper_st_counts f a s (Ha _)) as [-> ->]. split; lia.
Qed.

(** X14. When the wrapped function returns, and the object then holds no
    error and a start time, the message posted is a success message: the
    status phrase is [Execution succeeded!], the attachment is green, the
    blocks are Command, Duration, Divider, Footer, and no error is stored
    after the call. *)
Theorem wrapper_st_success_report (f : procedure A R) (a : A) (s : state)
    (res : R) (t0 : Z) :
  let s2 := snd (p_call f a (entered pf s)) in
  let s' := snd (wrapper_st pf f a s) in
  fst (p_call f a (entered pf s)) = Returns res ->
  error (fst s2) = None ->
  t_start (fst s2) = Some t0 ->
  error (fst s') = None /\
  exists m,
    posted (snd s') = List.app (posted (snd s2)) [m] /\
    m_text m =
      join " " (map render_mention (mentions (fst s2)))
      ++ " *Execution succeeded!* (at function `"
      ++ fmt_name (func_name (fst s2)) ++ "`)" /\
    map color (m_attachments m) = ["#36a64f"] /\
    map block_kind (message_blocks m) =
      [Some CommandSection; Some DurationSection;
       Some DividerSection; Some FooterSection].
Proof.
  cbv zeta. intros Hf Herr H0.
  destruct (wrapper_st_state f a s)
    as [(e & Hf' & _) | (raised & ms & rs & _ & Hr & _ & Hsend & _)].
  { congruence. }
  rewrite Hf in Hr. subst raised. rewrite <- Hsend. clear Hsend.
  set (s2 := snd (p_call f a (entered pf s))) in *.
  assert (H0' : t_start (fst (leaving pf s2 None)) = Some t0) by exact H0.
  assert (H1 : t_end (fst (leaving pf s2 None))
               = Some (clock pf (ticks (snd s2)))) by reflexivity.
  destruct (_send_eq pf _ (snd (leaving pf s2 None)) _ _ H0' H1)
    as (m & Hm & Hs).
  destruct (_create_message_eq pf _ (snd (leaving pf s2 None)) _ _ H0' H1)
    as (m1 & Hm1 & _ & Ht & Hb).
  destruct (_create_message_attachments pf _ (snd (leaving pf s2 None))
              _ _ H0' H1) as (m2 & Hm2 & _ & Ha).
  assert (m1 = m) as -> by congruence.
  assert (m2 = m) as -> by congruence.
  replace (fst (leaving pf s2 None), snd (leaving pf s2 None))
    with (leaving pf s2 None) in Hs by reflexivity.
  rewrite Hs.
  assert (Herr' : error (fst (leaving pf s2 None)) = None) by exact Herr.
  split.
  - destruct (chat_postMessage pf _ _ _) as [r | e];
      [| destruct (isinstance e "SlackApiError")]; exact Herr'.
  - exists m. split.
    + destruct (chat_postMessage pf _ _ _) as [r | e];
        [| destruct (isinstance e "SlackApiError")]; reflexivity.
    + rewrite Ht, Ha, Hb, Herr'. repeat split.
Qed.

End acting_functions.

(** A recursive decorated function, one level deep: two delivery
    attempts, four clock readings, and the start time of the outer call
    overwritten by the inner one. *)
Lemma reentrant_call_run :
  let r := wrapper_st pf_ok (work_again pf_ok) tt (plain, world0) in
  fst r = Returns 1%Z /\
  attempts (snd r) = 2%nat /\
  ticks (snd (snd r)) = 4%nat /\
  t_start (fst (snd r)) = Some (clock_1500ms 1) /\
  t_end (fst (snd r)) = Some (clock_1500ms 3).
Proof. repeat split; vm_compute; reflexivity. Qed.

(** A function that catches the failure of a function decorated by the
    same object returns, and is reported as failed. *)
Lemma nested_failure_run :
  let r := wrapper_st pf_ok (tolerant pf_ok) tt
             (with_func_name (Some "tolerant") plain, world0) in
  fst r = Returns 0%Z /\
  map m_text (posted (snd (snd r))) =
    [" *Execution failed!* (at function `tolerant`)";
     " *Execution failed!* (at function `tolerant`)"].
Proof. repeat split; vm_compute; reflexivity. Qed.

(* ----------------------------------------------------------------- *)
(** ** The duration *)

(** X16. A difference of clock readings with a microsecond part that is
    not zero is rendered as days, hours, minutes and seconds of
    [str(dt)], a point, and the milliseconds in three digits, the
    microsecond part divided by 1000 and cut. *)
Theorem duration_milliseconds (us : Z) :
  (us mod 1000000 <> 0)%Z ->
  drop_last3 (timedelta_str (timedelta_of us)) =
    timedelta_hms (timedelta_of us) ++ "."
    ++ fmt_0d 3 (us mod 1000000 / 1000).
Proof.
  intros H.
  pose proof (Z.mod_pos_bound us 1000000 eq_refl) as Hb.
  rewrite duration_with_microseconds by (cbn [timedelta_of microseconds]; lia).
  cbn [timedelta_of microseconds].
  now rewrite decimal_facts.drop_last3_fmt_06d.
Qed.


Lemma length_fmt_02d_ge (x : Z) :
  (0 <= x)%Z -> (2 <= String.length (fmt_0d 2 x))%nat.
Proof.
  intros H. unfold fmt_0d.
  destruct (Z.ltb_spec x 0) as [Hneg | _]; [lia |].
  rewrite length_zfill. lia.
Qed.

(** X17. When the elapsed time a [timedelta] holds, after its rounding to
    whole microseconds, is negative by at most a day, the rendered
    duration begins with [-1 day, ]: the difference is normalised to minus
    one day and a positive rest. *)
Theorem negative_duration (us : Z) :
  (-86400000000 <= us < 0)%Z ->
  String.prefix "-1 day, " (drop_last3 (timedelta_str (timedelta_of us)))
  = true.
Proof.
  intros H. apply prefix_append.
  assert (Hd : (us / 86400000000 = -1)%Z)
    by (symmetry; apply (Z.div_unique us 86400000000 (-1) (us + 86400000000));
        lia).
  set (dt := timedelta_of us).
  set (rest := fmt_d (seconds dt / 60 / 60) ++ ":"
               ++ fmt_0d 2 (seconds dt / 60 mod 60) ++ ":"
               ++ fmt_0d 2 (seconds dt mod 60)).
  assert (Hhms : timedelta_hms dt = "-1 day, " ++ rest).
  { unfold timedelta_hms. subst dt. cbn [timedelta_of days seconds].
    rewrite Hd. reflexivity. }
  assert (Hlen : (3 <= String.length rest)%nat).
  { unfold rest. rewrite !length_append.
    pose proof (length_fmt_02d_ge (seconds dt mod 60)) as Hs.
    pose proof (Z.mod_pos_bound (seconds dt) 60 eq_refl).
    change (String.length ":") with 1%nat. lia. }
  unfold timedelta_str. rewrite Hhms.
  destruct (microseconds dt =? 0)%Z.
  - exists (drop_last3 rest). now apply drop_last3_append.
  - exists (drop_last3 (rest ++ "." ++ fmt_0d 6 (microseconds dt))).
    rewrite append_assoc. apply drop_last3_append.
    rewrite length_append. lia.
Qed.

(* ----------------------------------------------------------------- *)
(** ** The further properties at sample inputs *)

Lemma init_first_invalid_mention_witness :
  __init__ pf_bare "#ops"
    (Some (a_iterable ["here"; "@alice"; "everyone"])) None =
  Raises (ValueError
            "Mention '@alice' is not valid. Only 'channel', 'here', or user id ('U...') is acceptable.").
Proof.
  apply (init_first_invalid_mention pf_bare "#ops" ["here"] "@alice"
           ["everyone"] None).
  - repeat constructor.
  - reflexivity.
Defined.

Lemma init_missing_token_witness :
  __init__ pf_bare "#ops" (Some (a_str "channel")) None =
    Raises (KeyError "SLACK_API_TOKEN").
Proof.
  apply (init_missing_token pf_bare "#ops" (Some (a_str "channel"))).
  - repeat constructor.
  - reflexivity.
Defined.

Lemma init_object_witness :
  let n := Notify "#ops" ["here"] "xoxb-1" None None None None in
  channel n = "#ops" /\
  mentions n = ["here"] /\
  Forall (fun mention => _is_valid_mention mention = true) (mentions n) /\
  Some (token n) = Some "xoxb-1" /\
  error n = None /\ t_start n = None /\ t_end n = None /\
  func_name n = None.
Proof.
  exact (init_object Sample.pf_ok "#ops" (Some (a_str "here"))
           (Some "xoxb-1") _ eq_refl).
Defined.

Lemma message_envelope_witness :
  exists m,
    _create_message pf_ok (timed plain, world0) =
      (Returns m, (timed plain, world0)) /\
    m_channel m = "#ops" /\
    m_attachments m =
      [Attachment "Details about the execution results." "#36a64f"
                  (message_blocks m)].
Proof.
  exact (message_envelope pf_ok (timed plain) world0
           (clock_1500ms 0) (clock_1500ms 1) eq_refl eq_refl).
Defined.

Lemma send_status_witness :
  fst (_send pf_api_error (timed plain, world0)) = Returns 1%Z.
Proof.
  destruct (send_status pf_api_error (timed plain) world0
              (clock_1500ms 0) (clock_1500ms 1) eq_refl eq_refl)
    as (m & _ & _ & H1 & _).
  apply H1. eexists. split; reflexivity.
Defined.

Lemma send_without_times_witness :
  exists e,
    _send pf_ok (plain, world0) = (Raises e, (plain, world0)) /\
    exc_class e = "TypeError".
Proof.
  apply (send_without_times pf_ok plain world0). left. reflexivity.
Defined.

Lemma wrapper_base_exception_witness :
  wrapper pf_ok interrupted tt (plain, world0) =
    (Raises KeyboardInterrupt,
     (with_t_start (Some (clock_1500ms 0)) plain, World 1 [] [])).
Proof.
  exact (wrapper_base_exception pf_ok interrupted tt plain world0
           KeyboardInterrupt eq_refl eq_refl).
Defined.

Lemma wrapper_failure_report_witness :
  error (fst (snd (wrapper pf_ok bad_input tt (plain, world0)))) =
    Some (ValueError "bad input").
Proof.
  exact (proj1 (wrapper_failure_report pf_ok bad_input tt plain world0
                  (ValueError "bad input") eq_refl eq_refl)).
Defined.

Lemma duration_milliseconds_witness :
  drop_last3 (timedelta_str (timedelta_of 5123456)) = "0:00:05.123".
Proof.
  refine (duration_milliseconds 5123456 _). discriminate.
Defined.

Lemma negative_duration_witness :
  String.prefix "-1 day, " (drop_last3 (timedelta_str (timedelta_of (-250000))))
  = true.
Proof. apply (negative_duration (-250000)). lia. Defined.

Lemma wrapper_st_keeps_configuration_witness :
  configuration (fst (snd (wrapper_st pf_ok doubling 21%Z (loud, world0)))) =
    configuration loud.
Proof.
  exact (wrapper_st_keeps_configuration pf_ok doubling 21%Z (loud, world0)
           eq_refl).
Defined.


Lemma wrapper_st_success_report_witness :
  error (fst (snd (wrapper_st pf_ok doubling 21%Z (plain, world0)))) = None.
Proof.
  exact (proj1 (wrapper_st_success_report pf_ok doubling 21%Z (plain, world0)
                  42%Z (clock_1500ms 0) eq_refl eq_refl eq_refl)).
Defined.

Lemma run_calls_st_attempts_witness :
  attempts (run_calls_st pf_ok doubling [1; -1; 2]%Z (plain, world0)) = 3%nat.
Proof.
  refine (proj1 (run_calls_st_attempts pf_ok doubling [1; -1; 2]%Z
                   (plain, world0) _)).
  repeat constructor; try reflexivity;
    intros e E; cbn in E;
    first [discriminate | injection E as <-; reflexivity].
Defined.
